(** * testofx: the OFX test client and the OFX header parser

    A shallow embedding of [testofx.py].  Python [str] values are Rocq
    strings whose characters are the code points U+0000..U+00FF; the
    dictionaries [OFXTestClient.cache] and [OFXFile.headers] are class
    attributes, hence one store shared by every instance, and are threaded
    explicitly through the operations that read or write them. *)

From Stdlib Require Import String Ascii List ZArith QArith Lia Bool DecimalString.
From stdpp Require Import base option gmap strings.
Import ListNotations.
Open Scope string_scope.
Open Scope Z_scope.

(** ** Python exceptions and results *)

Inductive exn : Type :=
| ValueError (msg : string)
| IndexError (msg : string)
| KeyError (key : string)
| NameError (name : string)
| UnboundLocalError (name : string)
| AttributeError (msg : string)
| TypeError (msg : string)
| RequestException (msg : string).

Inductive res (A : Type) : Type :=
| Ret (a : A)
| Raise (e : exn).
Arguments Ret {A} a.
Arguments Raise {A} e.

Definition res_bind {A B : Type} (r : res A) (k : A -> res B) : res B :=
  match r with
  | Ret a => k a
  | Raise e => Raise e
  end.

Notation "'let?' x ':=' r 'in' k" := (res_bind r (fun x => k))
  (at level 10, x pattern, r at level 100, k at level 200).

(** ** The part of Python's [str] the module uses *)

Module Py.

Definition LF : ascii := "010"%char.
Definition CR : ascii := "013"%char.
Definition DQ : string := String "034"%char EmptyString.

(** [p] is a prefix of [s]. *)
Fixpoint prefix (p s : string) : bool :=
  match p with
  | EmptyString => true
  | String a p' =>
      match s with
      | EmptyString => false
      | String b s' => Ascii.eqb a b && prefix p' s'
      end
  end.

(** [s.startswith(p)] *)
Definition startswith (s p : string) : bool := prefix p s.

(** [s.find(sub)] searched from offset [i]: the index of the first
    occurrence, [-1] when there is none. *)
Fixpoint find_from (sub s : string) (i : Z) : Z :=
  if prefix sub s then i
  else match s with
       | EmptyString => -1
       | String _ s' => find_from sub s' (i + 1)
       end.

Definition find (s sub : string) : Z := find_from sub s 0.

(** [s.replace(old, new)] for a non-empty [old]: occurrences are replaced
    left to right and do not overlap; [skip] counts the characters of the
    occurrence just replaced that are still to be dropped. *)
Fixpoint replace_aux (old new s : string) (skip : nat) : string :=
  match s with
  | EmptyString => EmptyString
  | String c s' =>
      match skip with
      | S k => replace_aux old new s' k
      | O =>
          if prefix old s
          then new +:+ replace_aux old new s' (Nat.pred (String.length old))
          else String c (replace_aux old new s' O)
      end
  end.

Definition replace (s old new : string) : string := replace_aux old new s O.

(** The line boundaries of [str.splitlines] below U+0100: LF, VT, FF, CR,
    FS, GS, RS and NEL (CR LF counts as one boundary). *)
Definition is_linebreak (c : ascii) : bool :=
  match nat_of_ascii c with
  | 10%nat | 11%nat | 12%nat | 13%nat | 28%nat | 29%nat | 30%nat | 133%nat => true
  | _ => false
  end.

(** [s.splitlines()]: the lines without their boundaries; a final boundary
    opens no further line. *)
Fixpoint splitlines (s : string) : list string :=
  match s with
  | EmptyString => []
  | String c s' =>
      if is_linebreak c then
        match s' with
        | String c' s'' =>
            if Ascii.eqb c CR && Ascii.eqb c' LF
            then EmptyString :: splitlines s''
            else EmptyString :: splitlines s'
        | EmptyString => [EmptyString]
        end
      else
        match splitlines s' with
        | l :: ls => String c l :: ls
        | [] => [String c EmptyString]
        end
  end.

(** [s.split(sep)] for a one-character separator: every occurrence splits. *)
Fixpoint split (s : string) (sep : ascii) : list string :=
  match s with
  | EmptyString => [EmptyString]
  | String c s' =>
      if Ascii.eqb c sep then EmptyString :: split s' sep
      else match split s' sep with
           | l :: ls => String c l :: ls
           | [] => [String c EmptyString]
           end
  end.

(** [len(s)] *)
Definition len (s : string) : Z := Z.of_nat (String.length s).

(** [s[0]]: the one-character string at index 0. *)
Definition getitem0 (s : string) : res string :=
  match s with
  | EmptyString => Raise (IndexError "string index out of range")
  | String c _ => Ret (String c EmptyString)
  end.

(** [s.upper()] on the ASCII letters. *)
Definition upper_char (c : ascii) : ascii :=
  let n := nat_of_ascii c in
  if (97 <=? n)%nat && (n <=? 122)%nat then ascii_of_nat (n - 32) else c.

Fixpoint upper (s : string) : string :=
  match s with
  | EmptyString => EmptyString
  | String c s' => String (upper_char c) (upper s')
  end.

(** *** [str.format]

    A template is cut into literal text and replacement fields.  The
    templates of this module use the plain forms only: [{}] (the next
    positional argument), [{name}] (a keyword argument) and the escapes
    [{{] and [}}]. *)

Inductive piece : Type :=
| Lit (s : string)
| Field (name : string).

Definition lit_cons (c : ascii) (ps : list piece) : list piece :=
  match ps with
  | Lit s :: ps' => Lit (String c s) :: ps'
  | _ => Lit (String c EmptyString) :: ps
  end.

Definition field_cons (c : ascii) (ps : list piece) : option (list piece) :=
  match ps with
  | Field n :: ps' => Some (Field (String c n) :: ps')
  | _ => None
  end.

(** [in_field] tells whether the scan is between [{] and [}]. *)
Fixpoint pieces (in_field : bool) (t : string) : option (list piece) :=
  match t with
  | EmptyString => if in_field then None else Some []
  | String c t' =>
      if in_field then
        if Ascii.eqb c "}" then option_map (cons (Field EmptyString)) (pieces false t')
        else if Ascii.eqb c "{" then None
        else match pieces true t' with
             | Some ps => field_cons c ps
             | None => None
             end
      else if Ascii.eqb c "{" then
        match t' with
        | String "{" t'' => option_map (lit_cons "{") (pieces false t'')
        | _ => pieces true t'
        end
      else if Ascii.eqb c "}" then
        match t' with
        | String "}" t'' => option_map (lit_cons "}") (pieces false t'')
        | _ => None
        end
      else option_map (lit_cons c) (pieces false t')
  end.

Fixpoint assoc (k : string) (kw : list (string * string)) : option string :=
  match kw with
  | [] => None
  | (k', v) :: kw' => if String.eqb k k' then Some v else assoc k kw'
  end.

Fixpoint render (ps : list piece) (args : list string)
    (kw : list (string * string)) : res string :=
  match ps with
  | [] => Ret EmptyString
  | Lit s :: ps' =>
      let? r := render ps' args kw in Ret (s +:+ r)
  | Field EmptyString :: ps' =>
      match args with
      | a :: args' => let? r := render ps' args' kw in Ret (a +:+ r)
      | [] => Raise (IndexError "Replacement index out of range for positional args tuple")
      end
  | Field n :: ps' =>
      match assoc n kw with
      | Some a => let? r := render ps' args kw in Ret (a +:+ r)
      | None => Raise (KeyError n)
      end
  end.

(** [t.format( *args, **kw )] *)
Definition format (t : string) (args : list string)
    (kw : list (string * string)) : res string :=
  match pieces false t with
  | Some ps => render ps args kw
  | None => Raise (ValueError "invalid format string")
  end.

End Py.

(** ** Module-level definitions of [testofx.py] *)

Definition USER_AGENT : string := "InetClntApp/3.0".
Definition CONTENT_TYPE : string := "application/x-ofx".

Definition HDR_OFXHEADER : string := "OFXHEADER".
Definition HDR_DATA : string := "DATA".
Definition HDR_VERSION : string := "VERSION".
Definition HDR_SECURITY : string := "SECURITY".
Definition HDR_ENCODING : string := "ENCODING".
Definition HDR_CHARSET : string := "CHARSET".
Definition HDR_COMPRESSION : string := "COMPRESSION".
Definition HDR_OLDFILEUID : string := "OLDFILEUID".
Definition HDR_NEWFILEUID : string := "NEWFILEUID".

Definition HDR_FIELDS_V1 : list string :=
  [HDR_OFXHEADER; HDR_DATA; HDR_VERSION; HDR_SECURITY;
   HDR_ENCODING; HDR_CHARSET; HDR_COMPRESSION; HDR_OLDFILEUID;
   HDR_NEWFILEUID].

Definition HDR_FIELDS_V2 : list string :=
  [HDR_OFXHEADER; HDR_VERSION; HDR_SECURITY; HDR_OLDFILEUID;
   HDR_NEWFILEUID].

Definition OFX_HEADER_100 : string :=
"OFXHEADER:100
DATA:OFXSGML
VERSION:{version}
SECURITY:NONE
ENCODING:USASCII
CHARSET:1252
COMPRESSION:NONE
OLDFILEUID:NONE
NEWFILEUID:NONE
".

(** [q s] is [s] between double quotes. *)
Definition q (s : string) : string := Py.DQ +:+ s +:+ Py.DQ.

Definition OFX_HEADER_200 : string :=
"<?xml version=" +:+ q "1.0" +:+ " encoding=" +:+ q "UTF-8" +:+ " standalone=" +:+ q "no" +:+ "?>
<?OFX OFXHEADER=" +:+ q "200" +:+ " VERSION=" +:+ q "{version}" +:+ " SECURITY=" +:+ q "NONE" +:+ " OLDFILEUID=" +:+ q "NONE" +:+ "
NEWFILEUID=" +:+ q "NONE" +:+ "?>
".

Definition REQ_NAME_GET_ROOT : string := "GET /".
Definition REQ_NAME_GET_OFX : string := "GET OFX Path".
Definition REQ_NAME_POST_OFX : string := "POST OFX Path".
Definition REQ_NAME_OFX_EMPTY : string := "OFX Empty".
Definition REQ_NAME_OFX_PROFILE : string := "OFX PROFILE".
Definition REQ_NAME_OFX_ACCTINFO : string := "OFX ACCTINFO".

Definition REQ_NAMES : list string :=
  [REQ_NAME_GET_ROOT;
   REQ_NAME_GET_OFX;
   REQ_NAME_POST_OFX;
   REQ_NAME_OFX_EMPTY;
   REQ_NAME_OFX_PROFILE;
   REQ_NAME_OFX_ACCTINFO].

Definition REQ_METHODS : gmap string string :=
  list_to_map
    [(REQ_NAME_GET_ROOT, "GET");
     (REQ_NAME_GET_OFX, "GET");
     (REQ_NAME_POST_OFX, "POST");
     (REQ_NAME_OFX_EMPTY, "POST");
     (REQ_NAME_OFX_PROFILE, "POST");
     (REQ_NAME_OFX_ACCTINFO, "POST")].

(** [d[k]] on a dictionary with string keys. *)
Definition dict_getitem {V : Type} (d : gmap string V) (k : string) : res V :=
  match d !! k with
  | Some v => Ret v
  | None => Raise (KeyError k)
  end.

(** The kinds of value a module-level name of [testofx.py] is bound to. *)
Inductive pyval : Type :=
| VModule
| VFunction
| VClass
| VStr (s : string)
| VList
| VDict
| VInt (n : Z).

(** Every name bound at module level, in the order of the source: the
    imports, the constants, the functions and the classes. *)
Definition module_globals : list (string * pyval) :=
  [("json", VModule); ("re", VModule); ("requests", VModule);
   ("time", VModule); ("uuid4", VFunction);
   ("USER_AGENT", VStr USER_AGENT); ("CONTENT_TYPE", VStr CONTENT_TYPE);
   ("HDR_OFXHEADER", VStr HDR_OFXHEADER); ("HDR_DATA", VStr HDR_DATA);
   ("HDR_VERSION", VStr HDR_VERSION); ("HDR_SECURITY", VStr HDR_SECURITY);
   ("HDR_ENCODING", VStr HDR_ENCODING); ("HDR_CHARSET", VStr HDR_CHARSET);
   ("HDR_COMPRESSION", VStr HDR_COMPRESSION);
   ("HDR_OLDFILEUID", VStr HDR_OLDFILEUID);
   ("HDR_NEWFILEUID", VStr HDR_NEWFILEUID);
   ("HDR_FIELDS_V1", VList); ("HDR_FIELDS_V2", VList);
   ("OFX_HEADER_100", VStr OFX_HEADER_100);
   ("OFX_HEADER_200", VStr OFX_HEADER_200);
   ("REQ_NAME_GET_ROOT", VStr REQ_NAME_GET_ROOT);
   ("REQ_NAME_GET_OFX", VStr REQ_NAME_GET_OFX);
   ("REQ_NAME_POST_OFX", VStr REQ_NAME_POST_OFX);
   ("REQ_NAME_OFX_EMPTY", VStr REQ_NAME_OFX_EMPTY);
   ("REQ_NAME_OFX_PROFILE", VStr REQ_NAME_OFX_PROFILE);
   ("REQ_NAME_OFX_ACCTINFO", VStr REQ_NAME_OFX_ACCTINFO);
   ("REQ_NAMES", VList); ("REQ_METHODS", VDict);
   ("_print_http_response", VFunction); ("dt_now", VFunction);
   ("uid", VFunction); ("is_ofx_response", VFunction);
   ("OFXServerInstance", VClass); ("OFXTestClient", VClass);
   ("OFXFile", VClass)].

Fixpoint lookup_name (name : string) (ns : list (string * pyval)) : option pyval :=
  match ns with
  | [] => None
  | (n, v) :: ns' => if String.eqb name n then Some v else lookup_name name ns'
  end.

(** A name that a function body reads without ever assigning it is looked
    up in the module's globals ([wait] is no builtin either). *)
Definition load_global (name : string) : res pyval :=
  match lookup_name name module_globals with
  | Some v => Ret v
  | None => Raise (NameError name)
  end.

(** [v > 0] *)
Definition gt_zero (v : pyval) : res bool :=
  match v with
  | VInt n => Ret (0 <? n)
  | _ => Raise (TypeError "'>' not supported between these operands")
  end.

(** *** The clock and the UUID generator *)

Record struct_time : Type := {
  tm_year : nat; tm_mon : nat; tm_mday : nat;
  tm_hour : nat; tm_min : nat; tm_sec : nat
}.

Definition dec (n : nat) : string := NilEmpty.string_of_uint (Nat.to_uint n).

(** [str(n)] for an [int] *)
Definition str_int (n : Z) : string :=
  if n <? 0 then "-" +:+ dec (Z.abs_nat n) else dec (Z.abs_nat n).

(** A two-digit, zero-padded field. *)
Definition dec2 (n : nat) : string :=
  if (n <? 10)%nat then "0" +:+ dec n else dec n.

Definition directive (d : ascii) (t : struct_time) : string :=
  if Ascii.eqb d "Y" then dec (tm_year t)
  else if Ascii.eqb d "m" then dec2 (tm_mon t)
  else if Ascii.eqb d "d" then dec2 (tm_mday t)
  else if Ascii.eqb d "H" then dec2 (tm_hour t)
  else if Ascii.eqb d "M" then dec2 (tm_min t)
  else if Ascii.eqb d "S" then dec2 (tm_sec t)
  else String "%" (String d EmptyString).

(** [time.strftime(fmt, t)] for the directives the module uses. *)
Fixpoint strftime (fmt : string) (t : struct_time) : string :=
  match fmt with
  | String "%" (String d fmt') => directive d t +:+ strftime fmt' t
  | String c fmt' => String c (strftime fmt' t)
  | EmptyString => EmptyString
  end.

(** [dt_now()], with [time.localtime()] given. *)
Definition dt_now (localtime : struct_time) : string :=
  strftime "%Y%m%d%H%M%S.123[-7:MST]" localtime.

(** [uid()], with [str(uuid4())] given. *)
Definition uid (uuid4 : string) : string := Py.upper uuid4.

(** [is_ofx_response(resp_body)] *)
Definition is_ofx_response (resp_body : string) : bool :=
  let ret := false in
  let ret := if Py.startswith resp_body "OFXHEADER" then true else ret in
  let ret := if negb (Py.find resp_body "<?OFX OFXHEADER" =? -1) then true else ret in
  ret.

(** ** [class OFXServerInstance] *)

Module OFXServerInstance.

Record t : Type := { ofxurl : string; fid : string; org : string }.

(** [fid] and [org] may be [None]; a falsy value is stored as [''] *)
Definition __init__ (ofxurl : string) (fid org : option string) : t :=
  {| ofxurl := ofxurl;
     fid := match fid with Some f => if String.eqb f EmptyString then EmptyString else f | None => EmptyString end;
     org := match org with Some o => if String.eqb o EmptyString then EmptyString else o | None => EmptyString end |}.

End OFXServerInstance.

(** ** The HTTP boundary: what [requests] is asked and what it answers *)

Record response : Type := { status_code : Z; text : string }.

Record http_request : Type := {
  rq_method : string;
  rq_url : string;
  rq_headers : list (string * string);
  rq_timeout : Q * Q;
  rq_verify : bool;
  rq_data : option string
}.

Inductive net_outcome : Type :=
| Responded (r : response)
| ConnectionError (ex : string)
| ReadTimeout (ex : string)
| OtherError (e : exn).

(** What an operation of the client can observe or change: the class
    attribute [OFXTestClient.cache] (a stored [None] is [Some None]), the
    requests handed to [requests], the [time.sleep] calls and the lines
    printed. *)
Record world : Type := {
  cache : gmap string (option response);
  sent : list http_request;
  slept : list Z;
  stdout : list string
}.

Definition set_cache (c : gmap string (option response)) (w : world) : world :=
  {| cache := c; sent := sent w; slept := slept w; stdout := stdout w |}.

Definition send (rq : http_request) (w : world) : world :=
  {| cache := cache w; sent := (sent w ++ [rq])%list; slept := slept w; stdout := stdout w |}.

Definition sleep (secs : Z) (w : world) : world :=
  {| cache := cache w; sent := sent w; slept := (slept w ++ [secs])%list; stdout := stdout w |}.

Definition print (line : res string) (w : world) : world :=
  match line with
  | Ret l => {| cache := cache w; sent := sent w; slept := slept w; stdout := (stdout w ++ [l])%list |}
  | Raise _ => w
  end.

(** ** [class OFXTestClient] *)

Module OFXTestClient.

Record t : Type := {
  timeout : Q * Q;
  wait : Z;
  use_cache : bool;
  _output : bool;
  version : string;
  ofxheader : string;
  content_type : string
}.

Definition default_timeout : Q * Q := (32 # 10, 27 # 1)%Q.
Definition default_version : string := "102".

Definition __init__ (timeout : Q * Q) (wait : Z) (use_cache output : bool)
    (version : string) : res t :=
  let? v0 := Py.getitem0 version in
  if String.eqb v0 "1" then
    let? h := Py.format OFX_HEADER_100 [] [("version", version)] in
    Ret {| timeout := timeout; wait := wait; use_cache := use_cache;
           _output := output; version := version;
           ofxheader := h; content_type := "text/sgml" |}
  else if String.eqb v0 "2" then
    let? h := Py.format OFX_HEADER_200 [] [("version", version)] in
    Ret {| timeout := timeout; wait := wait; use_cache := use_cache;
           _output := output; version := version;
           ofxheader := h; content_type := "text/xml" |}
  else
    let? msg := Py.format "Unknown OFX version number {}" [version] [] in
    Raise (ValueError msg).

Section Effects.

(** The answer of the network to a request, given the requests made before
    it; [localtime] and [uuid4] are what the clock and the UUID generator
    return during the call. *)
Variable network : list http_request -> http_request -> net_outcome.
Variable localtime : struct_time.
Variable uuid4 : string.

Definition call_url_cached (self : t) (url : string) (tlsverify : bool)
    (body : string) (method : string) (w : world)
    : world * res (option response * bool) :=
  if negb (String.eqb method "GET" || String.eqb method "POST") then
    (w, Raise (ValueError "Method must be 'GET' or 'POST'"))
  else
    let headers := [("User-Agent", USER_AGENT)] in
    let headers :=
      if String.eqb method "POST"
      then (headers ++ [("Content-Type", CONTENT_TYPE)])%list else headers in
    match cache w !! url with
    | Some r => (w, Ret (r, true))
    | None =>
        let w := if _output self then print (Py.format "{}" [url] []) w else w in
        let rq :=
          {| rq_method := method; rq_url := url; rq_headers := headers;
             rq_timeout := timeout self; rq_verify := tlsverify;
             rq_data := if String.eqb method "GET" then None else Some body |} in
        let answer := network (sent w) rq in
        let w := send rq w in
        match answer with
        | Responded r =>
            let w := if use_cache self then set_cache (<[url := Some r]> (cache w)) w else w in
            (w, Ret (Some r, false))
        | ConnectionError ex =>
            let w := if _output self
                     then print (Py.format "	ConnectionError: {}" [ex] []) w else w in
            let w := set_cache (<[url := None]> (cache w)) w in
            (w, Ret (None, false))
        | ReadTimeout ex =>
            let w := if _output self
                     then print (Py.format "	ConnectionError: {}" [ex] []) w else w in
            match (let? v := load_global "wait" in gt_zero v) with
            | Raise e => (w, Raise e)
            | Ret true =>
                let w := if _output self
                         then print (Py.format "	Waiting for {} seconds"
                                       [str_int (wait self)] []) w
                         else w in
                (sleep (wait self) w, Ret (None, false))
            | Ret false => (w, Ret (None, false))
            end
        | OtherError e => (w, Raise e)
        end
    end.

Definition _get_signonmsg_anonymous_payload (self : t)
    (si : option OFXServerInstance.t) : res string :=
  let fmts : option (string * string) :=
    if String.eqb (content_type self) "text/sgml" then
      Some (
"<FI>
<ORG>{org}
<FID>{fid}
</FI>
",
"<SIGNONMSGSRQV1>
<SONRQ>
<DTCLIENT>{dt}
<USERID>anonymous00000000000000000000000
<USERPASS>anonymous00000000000000000000000
<GENUSERKEY>N
<LANGUAGE>ENG
{fi}<APPID>QWIN
<APPVER>2700
</SONRQ>
</SIGNONMSGSRQV1>")
    else if String.eqb (content_type self) "text/xml" then
      Some (
"<FI>
<ORG>{org}</ORG>
<FID>{fid}</FID>
</FI>
",
"<SIGNONMSGSRQV1>
<SONRQ>
<DTCLIENT>{dt}</DTCLIENT>
<USERID>anonymous00000000000000000000000</USERID>
<USERPASS>anonymous00000000000000000000000</USERPASS>
<GENUSERKEY>N</GENUSERKEY>
<LANGUAGE>ENG</LANGUAGE>
{fi}<APPID>QWIN</APPID>
<APPVER>2700</APPVER>
</SONRQ>
</SIGNONMSGSRQV1>")
    else None in
  let? fi :=
    match si with
    | None => Ret EmptyString
    | Some si =>
        match fmts with
        | Some (ofx_fi_fmt, _) =>
            Py.format ofx_fi_fmt []
              [("fid", OFXServerInstance.fid si); ("org", OFXServerInstance.org si)]
        | None => Raise (UnboundLocalError "ofx_fi_fmt")
        end
    end in
  match fmts with
  | Some (_, ofx_signon_fmt) =>
      Py.format ofx_signon_fmt [] [("dt", dt_now localtime); ("fi", fi)]
  | None => Raise (UnboundLocalError "ofx_signon_fmt")
  end.

Definition get_empty_payload (self : t) (si : option OFXServerInstance.t) : string :=
  EmptyString.

Definition get_ofx_empty_payload (self : t) (si : option OFXServerInstance.t)
    : res string :=
  let ofx_body :=
"<OFX>
</OFX>
" in
  Py.format "{}{}{}" [ofxheader self; String Py.LF EmptyString; ofx_body] [].

Definition get_profile_payload (self : t) (si : option OFXServerInstance.t)
    : res string :=
  let ofx_body_fmt : option string :=
    if String.eqb (content_type self) "text/sgml" then
      Some
"<OFX>
{signonmsg}
<PROFMSGSRQV1>
<PROFTRNRQ>
<TRNUID>{uid}
<PROFRQ>
<CLIENTROUTING>MSGSET
<DTPROFUP>19900101
</PROFRQ>
</PROFTRNRQ>
</PROFMSGSRQV1>
</OFX>
"
    else if String.eqb (content_type self) "text/xml" then
      Some
"<OFX>
{signonmsg}
<PROFMSGSRQV1>
<PROFTRNRQ>
<TRNUID>{uid}</TRNUID>
<PROFRQ>
<CLIENTROUTING>MSGSET</CLIENTROUTING>
<DTPROFUP>19900101</DTPROFUP>
</PROFRQ>
</PROFTRNRQ>
</PROFMSGSRQV1>
</OFX>
"
    else None in
  match ofx_body_fmt with
  | None => Raise (UnboundLocalError "ofx_body_fmt")
  | Some ofx_body_fmt =>
      let? signonmsg := _get_signonmsg_anonymous_payload self si in
      let? body := Py.format ofx_body_fmt []
                     [("signonmsg", signonmsg); ("uid", uid uuid4)] in
      Py.format "{}{}{}" [ofxheader self; String Py.LF EmptyString; body] []
  end.

Definition get_acctinfo_payload (self : t) (si : option OFXServerInstance.t)
    : res string :=
  let ofx_body_fmt :=
"<OFX>
{signonmsg}
<SIGNUPMSGSRQV1>
<ACCTINFOTRNRQ>
<TRNUID>{uid}
<ACCTINFORQ>
<DTACCTUP>19900101
</ACCTINFORQ>
</ACCTINFOTRNRQ>
</SIGNUPMSGSRQV1>
</OFX>
" in
  let? signonmsg := _get_signonmsg_anonymous_payload self si in
  let? body := Py.format ofx_body_fmt []
                 [("signonmsg", signonmsg); ("uid", uid uuid4)] in
  Py.format "{}{}{}" [ofxheader self; String Py.LF EmptyString; body] [].

Definition get_invstmtrn_payload (self : t) (si : option OFXServerInstance.t)
    (brokerid acctid : string) : res string :=
  let ofx_body_fmt :=
"<OFX>
{signonmsg}
<INVSTMTMSGSRQV1>
<INVSTMTTRNRQ>
<TRNUID>{uid}
<INVSTMTRQ>
<INVACCTFROM>
<BROKERID>{broker_id}
<ACCTID>{acct_id}
</INVACCTFROM>
<INCTRAN>
<INCLUDE>Y
</INCTRAN>
<INCOO>Y
<INCPOS>
<INCLUDE>Y
</INCPOS>
<INCBAL>Y
</INVSTMTRQ>
</INVSTMTTRNRQ>
</INVSTMTMSGSRQV1>
</OFX>
" in
  let? signonmsg := _get_signonmsg_anonymous_payload self si in
  let? body := Py.format ofx_body_fmt []
                 [("signonmsg", signonmsg); ("uid", uid uuid4);
                  ("broker_id", brokerid); ("acct_id", acctid)] in
  Py.format "{}{}{}" [ofxheader self; String Py.LF EmptyString; body] [].

(** [send_req(req_name, si)]: the arguments of the call are evaluated left
    to right, [si.ofxurl] first. *)
Definition send_req (self : t) (req_name : string)
    (si : option OFXServerInstance.t) (w : world)
    : world * res (option response) :=
  if String.eqb req_name REQ_NAME_OFX_PROFILE then
    match si with
    | None => (w, Raise (AttributeError "'NoneType' object has no attribute 'ofxurl'"))
    | Some s =>
        match (let? payload := get_profile_payload self si in
               let? method := dict_getitem REQ_METHODS req_name in
               Ret (payload, method)) with
        | Raise e => (w, Raise e)
        | Ret (payload, method) =>
            match call_url_cached self (OFXServerInstance.ofxurl s) true payload method w with
            | (w', Ret (res, was_cached)) => (w', Ret res)
            | (w', Raise e) => (w', Raise e)
            end
        end
    end
  else
    (w, let? msg := Py.format "Unknown request name: {}" [req_name] [] in
        Raise (ValueError msg)).

End Effects.

End OFXTestClient.

(** ** The regular expression of the version 2 header

    [rpat] is a sequence of literals and named groups [(?P<name>c+)] over
    a character class; matching is greedy and backtracks, [re.search]
    tries the start positions from left to right. *)

Module Re.

Inductive item : Type :=
| RLit (s : string)
| RGroup (name : string) (cls : ascii -> bool).

(** [\d] below U+0100 *)
Definition digit (c : ascii) : bool :=
  let n := nat_of_ascii c in (48 <=? n)%nat && (n <=? 57)%nat.

(** [\w] below U+0100: the alphanumeric characters and the underscore *)
Definition word (c : ascii) : bool :=
  let n := nat_of_ascii c in
  ((48 <=? n) && (n <=? 57) || (65 <=? n) && (n <=? 90) || (n =? 95)
   || (97 <=? n) && (n <=? 122)
   || (n =? 170) || (n =? 178) || (n =? 179) || (n =? 181) || (n =? 185)
   || (n =? 186) || (188 <=? n) && (n <=? 190)
   || (192 <=? n) && (n <=? 214) || (216 <=? n) && (n <=? 246)
   || (248 <=? n) && (n <=? 255))%nat.

Fixpoint strip (lit s : string) : option string :=
  match lit with
  | EmptyString => Some s
  | String c lit' =>
      match s with
      | String c' s' => if Ascii.eqb c c' then strip lit' s' else None
      | EmptyString => None
      end
  end.

Definition groups : Type := list (string * string).

(** [c+] then the rest of the pattern [cont]: take one more character if
    the rest can still match after it, stop here otherwise; [g] is what the
    group has taken so far. *)
Fixpoint plus (cls : ascii -> bool) (cont : string -> string -> option groups)
    (g s : string) : option groups :=
  match s with
  | String c s' =>
      if cls c then
        match plus cls cont (g +:+ String c EmptyString) s' with
        | Some r => Some r
        | None => cont (g +:+ String c EmptyString) s'
        end
      else None
  | EmptyString => None
  end.

Fixpoint match_here (p : list item) (s : string) : option groups :=
  match p with
  | [] => Some []
  | RLit l :: p' =>
      match strip l s with
      | Some s' => match_here p' s'
      | None => None
      end
  | RGroup name cls :: p' =>
      plus cls (fun g s' => option_map (cons (name, g)) (match_here p' s'))
        EmptyString s
  end.

(** [re.search(p, s)] *)
Fixpoint search (p : list item) (s : string) : option groups :=
  match match_here p s with
  | Some g => Some g
  | None =>
      match s with
      | String _ s' => search p s'
      | EmptyString => None
      end
  end.

(** [match.group(name)] *)
Definition group (m : groups) (name : string) : res string :=
  match Py.assoc name m with
  | Some g => Ret g
  | None => Raise (IndexError "no such group")
  end.

End Re.

(** ** [class OFXFile] *)

Module OFXFile.

(** The attributes an instance binds itself.  [headers] is not among
    them: [__init__] and [_parse_header] never assign [self.headers], they
    only store into the dictionary it names, which is the class attribute
    [OFXFile.headers = {}]. *)
Record t : Type := { _file_str : string; version : option string }.

(** [self.headers]: the lookup on the instance falls through to the
    class attribute. *)
Definition headers (self : t) (cls_headers : gmap string string)
    : gmap string string := cls_headers.

Definition _convert_newlines (file_str : string) : string :=
  Py.replace file_str (String Py.CR (String Py.LF EmptyString))
    (String Py.LF EmptyString).

(** The body of [for line in self._file_str.splitlines()] *)
Fixpoint scan_lines (lines : list string) (h : gmap string string)
    : gmap string string * res unit :=
  match lines with
  | [] => (h, Ret tt)
  | line :: lines' =>
      if String.eqb line EmptyString || Py.startswith line "<OFX>"
         || (13 <? Py.len line)
      then (h, Ret tt)
      else
        match Py.split line ":" with
        | [k; v] => scan_lines lines' (<[k := v]> h)
        | [] | [_] =>
            (h, Raise (ValueError "not enough values to unpack (expected 2, got 1)"))
        | _ => (h, Raise (ValueError "too many values to unpack (expected 2)"))
        end
  end.

Definition rpat : list Re.item :=
  [Re.RLit ("<?OFX OFXHEADER=" +:+ Py.DQ); Re.RGroup "OFXHEADER" Re.digit;
   Re.RLit (Py.DQ +:+ " VERSION=" +:+ Py.DQ); Re.RGroup "VERSION" Re.digit;
   Re.RLit (Py.DQ +:+ " SECURITY=" +:+ Py.DQ); Re.RGroup "SECURITY" Re.word;
   Re.RLit (Py.DQ +:+ " OLDFILEUID=" +:+ Py.DQ); Re.RGroup "OLDFILEUID" Re.word;
   Re.RLit (Py.DQ +:+ " NEWFILEUID=" +:+ Py.DQ); Re.RGroup "NEWFILEUID" Re.word;
   Re.RLit (Py.DQ +:+ "?>")].

(** The body of [for field in HDR_FIELDS_V2] *)
Fixpoint store_groups (fields : list string) (m : Re.groups)
    (h : gmap string string) : gmap string string * res unit :=
  match fields with
  | [] => (h, Ret tt)
  | field :: fields' =>
      match Re.group m field with
      | Ret g => store_groups fields' m (<[field := g]> h)
      | Raise e => (h, Raise e)
      end
  end.

(** [self.version = self.headers[HDR_VERSION]], a [KeyError] turned into
    the parse error. *)
Definition read_version (h : gmap string string) : res string :=
  match dict_getitem h HDR_VERSION with
  | Ret v => Ret v
  | Raise _ => Raise (ValueError "Parse Error: No version")
  end.

(** [_parse_header] on the class-level [headers]: the dictionary after
    the call, and the version read or the error raised. *)
Definition _parse_header (file_str : string) (h : gmap string string)
    : gmap string string * res string :=
  if Py.startswith file_str "OFXHEADER" then
    match scan_lines (Py.splitlines file_str) h with
    | (h', Ret _) => (h', read_version h')
    | (h', Raise e) => (h', Raise e)
    end
  else if negb (Py.find file_str "<?OFX OFXHEADER" =? -1) then
    match Re.search rpat file_str with
    | None =>
        (h, Raise (ValueError "Parse Error: Unable to parse V2 header with regex"))
    | Some m =>
        match store_groups HDR_FIELDS_V2 m h with
        | (h', Ret _) => (h', read_version h')
        | (h', Raise e) => (h', Raise e)
        end
    end
  else (h, Raise (ValueError "Parse Error: Unable to parse header")).

(** [OFXFile(file_str)] *)
Definition __init__ (file_str : string) (h : gmap string string)
    : gmap string string * res t :=
  let file_str := _convert_newlines file_str in
  match _parse_header file_str h with
  | (h', Ret v) => (h', Ret {| _file_str := file_str; version := Some v |})
  | (h', Raise e) => (h', Raise e)
  end.

End OFXFile.

(** ** Notions used to state the properties *)

(** No character of [s] satisfies [p]. *)
Fixpoint none_of (p : ascii -> bool) (s : string) : bool :=
  match s with
  | EmptyString => true
  | String c s' => negb (p c) && none_of p s'
  end.

Definition is_colon (c : ascii) : bool := Ascii.eqb c ":".

(** [s] holds no line boundary: it is one line of a text. *)
Definition plain (s : string) : bool := none_of Py.is_linebreak s.

(** [sub] occurs somewhere in [s]. *)
Fixpoint occurs (sub s : string) : bool :=
  Py.prefix sub s
  || match s with
     | EmptyString => false
     | String _ s' => occurs sub s'
     end.

(** The number of colons of a line, the text before its first colon and
    the text after it. *)
Fixpoint colons (s : string) : nat :=
  match s with
  | EmptyString => O
  | String c s' => if is_colon c then S (colons s') else colons s'
  end.

Fixpoint before_colon (s : string) : string :=
  match s with
  | EmptyString => EmptyString
  | String c s' => if is_colon c then EmptyString else String c (before_colon s')
  end.

Fixpoint after_colon (s : string) : string :=
  match s with
  | EmptyString => EmptyString
  | String c s' => if is_colon c then s' else after_colon s'
  end.

(** The three ways a line ends the header region. *)
Definition ends_header (line : string) : bool :=
  String.eqb line EmptyString || Py.startswith line "<OFX>" || (13 <? Py.len line).

(** The header region of a text: its lines before the first one that
    ends the header. *)
Fixpoint region (lines : list string) : list string :=
  match lines with
  | [] => []
  | l :: ls => if ends_header l then [] else l :: region ls
  end.

(** Storing a line as the specification words it: the text before the
    first colon is the field, everything after that colon is the value. *)
Definition store_line (h : gmap string string) (line : string) : gmap string string :=
  <[before_colon line := after_colon line]> h.

Definition store_lines (lines : list string) (h : gmap string string)
    : gmap string string := fold_left store_line lines h.

(** A text made of the given lines, each closed by a line feed. *)
Fixpoint unlines (lines : list string) : string :=
  match lines with
  | [] => EmptyString
  | l :: ls => l +:+ String Py.LF (unlines ls)
  end.

(** The lines of the version 1 header block for a version string. *)
Definition gen1_lines (version : string) : list string :=
  ["OFXHEADER:100"; "DATA:OFXSGML"; "VERSION:" +:+ version; "SECURITY:NONE";
   "ENCODING:USASCII"; "CHARSET:1252"; "COMPRESSION:NONE"; "OLDFILEUID:NONE";
   "NEWFILEUID:NONE"].

(** The lines of the version 2 header block the client renders. *)
Definition gen2_lines (version : string) : list string :=
  ["<?xml version=" +:+ q "1.0" +:+ " encoding=" +:+ q "UTF-8" +:+ " standalone=" +:+ q "no" +:+ "?>";
   "<?OFX OFXHEADER=" +:+ q "200" +:+ " VERSION=" +:+ q version +:+ " SECURITY=" +:+ q "NONE" +:+ " OLDFILEUID=" +:+ q "NONE";
   "NEWFILEUID=" +:+ q "NONE" +:+ "?>"].

(** The [<FI>] block of the signon fragment in either tag style. *)
Definition fi_block (content_type : string) (si : OFXServerInstance.t) : string :=
  if String.eqb content_type "text/sgml" then
    unlines ["<FI>"; "<ORG>" +:+ OFXServerInstance.org si;
             "<FID>" +:+ OFXServerInstance.fid si; "</FI>"]
  else
    unlines ["<FI>"; "<ORG>" +:+ OFXServerInstance.org si +:+ "</ORG>";
             "<FID>" +:+ OFXServerInstance.fid si +:+ "</FID>"; "</FI>"].

(** A call of [call_url_cached] with its receiver and arguments, and the
    world after a sequence of such calls. *)
Record call : Type := {
  c_self : OFXTestClient.t;
  c_url : string;
  c_tlsverify : bool;
  c_body : string;
  c_method : string
}.

Definition do_call (network : list http_request -> http_request -> net_outcome)
    (c : call) (w : world) : world * res (option response * bool) :=
  OFXTestClient.call_url_cached network (c_self c) (c_url c) (c_tlsverify c)
    (c_body c) (c_method c) w.

Definition run (network : list http_request -> http_request -> net_outcome)
    (cs : list call) (w : world) : world :=
  fold_left (fun w c => fst (do_call network c w)) cs w.

Definition new_world : world :=
  {| cache := ∅; sent := []; slept := []; stdout := [] |}.

(** The bindings a parse stores do not depend on the mapping it stores
    them into: [store_all] stores a list of them in order, and
    [last_binding] is the value the last of them gives a key. *)
Fixpoint last_binding (k : string) (bs : list (string * string)) : option string :=
  match bs with
  | [] => None
  | (k', v) :: bs' =>
      match last_binding k bs' with
      | Some v' => Some v'
      | None => if String.eqb k' k then Some v else None
      end
  end.

Definition store_all (bs : list (string * string)) (h : gmap string string)
    : gmap string string :=
  fold_left (fun h b => <[fst b := snd b]> h) bs h.

(** Values the clock and the UUID generator may return, used where a
    property is shown on a concrete run. *)
Definition example_localtime : struct_time :=
  {| tm_year := 2017; tm_mon := 6; tm_mday := 16;
     tm_hour := 14; tm_min := 13; tm_sec := 27 |}.

Definition example_uuid4 : string := "c1b7c870-7cb2-1000-bd91-e1e23e560026".

Definition example_response : response := {| status_code := 200; text := "OK" |}.

Definition example_two_colons : string := unlines ["OFXHEADER:100"; "A:b:c"].

Definition example_server : OFXServerInstance.t :=
  OFXServerInstance.__init__ "https://ofx.example.com/ofx" None None.

(** A client that uses the cache and one that does not. *)
Definition example_caching_client : OFXTestClient.t :=
  {| OFXTestClient.timeout := OFXTestClient.default_timeout;
     OFXTestClient.wait := 0; OFXTestClient.use_cache := true;
     OFXTestClient._output := false; OFXTestClient.version := "102";
     OFXTestClient.ofxheader := unlines (gen1_lines "102");
     OFXTestClient.content_type := "text/sgml" |}.

Definition example_plain_client : OFXTestClient.t :=
  {| OFXTestClient.timeout := OFXTestClient.default_timeout;
     OFXTestClient.wait := 0; OFXTestClient.use_cache := false;
     OFXTestClient._output := false; OFXTestClient.version := "102";
     OFXTestClient.ofxheader := unlines (gen1_lines "102");
     OFXTestClient.content_type := "text/sgml" |}.

(** Every character of [s] satisfies [p]. *)
Fixpoint all_of (p : ascii -> bool) (s : string) : bool :=
  match s with
  | EmptyString => true
  | String c s' => p c && all_of p s'
  end.

(** [lit] and [s] differ at a position both have. *)
Fixpoint clash (lit s : string) : bool :=
  match lit, s with
  | String a lit', String b s' => if Ascii.eqb a b then clash lit' s' else true
  | _, _ => false
  end.

(** No suffix of [s] can be the start of an occurrence of [lit], whatever
    follows [s]. *)
Fixpoint no_start (lit s : string) : bool :=
  match s with
  | EmptyString => true
  | String _ s' => clash lit s && no_start lit s'
  end.

(** [s] holds neither [<] nor a carriage return. *)
Definition tame (s : string) : bool :=
  none_of (fun c => Ascii.eqb c "<" || Ascii.eqb c Py.CR) s.

(** The body of the profile request in the version 2 tag style, around the
    signon fragment and the transaction id. *)
Definition profile_body_xml (signonmsg trnuid : string) : string :=
  "<OFX>
" +:+ signonmsg +:+ "
<PROFMSGSRQV1>
<PROFTRNRQ>
<TRNUID>" +:+ trnuid +:+ "</TRNUID>
<PROFRQ>
<CLIENTROUTING>MSGSET</CLIENTROUTING>
<DTPROFUP>19900101</DTPROFUP>
</PROFRQ>
</PROFTRNRQ>
</PROFMSGSRQV1>
</OFX>
".

(** The text the pattern of the version 2 header starts with. *)
Definition rpat_start : string := "<?OFX OFXHEADER=" +:+ Py.DQ.

(** [s] holds no carriage return and no start of the version 2 pattern. *)
Definition quiet (s : string) : bool :=
  none_of (Ascii.eqb Py.CR) s && no_start rpat_start s.

(** The [<?OFX ...?>] instruction as the client renders it for the version
    string [2v], up to the line feed after OLDFILEUID, followed by [rest]. *)
Definition rendered_instruction (v rest : string) : string :=
  rpat_start +:+ "200" +:+ (Py.DQ +:+ " VERSION=" +:+ Py.DQ)
  +:+ String "2" v +:+ (Py.DQ +:+ " SECURITY=" +:+ Py.DQ)
  +:+ "NONE" +:+ (Py.DQ +:+ " OLDFILEUID=" +:+ Py.DQ)
  +:+ "NONE" +:+ String "034" (String Py.LF rest).

(** The same text with network newlines: every line feed preceded by a
    carriage return. *)
Fixpoint to_crlf (s : string) : string :=
  match s with
  | EmptyString => EmptyString
  | String c s' =>
      if Ascii.eqb c Py.LF then String Py.CR (String Py.LF (to_crlf s'))
      else String c (to_crlf s')
  end.

(** The value the last line with the field [k] gives it. *)
Definition last_value (k : string) (lines : list string) : option string :=
  last_binding k (map (fun l => (before_colon l, after_colon l)) lines).

(** What a parse tells its caller: the version read, or the error. *)
Definition parsed_version (r : res OFXFile.t) : res (option string) :=
  let? f := r in Ret (OFXFile.version f).


(** The headers and the body a request of the client carries. *)
Definition carries_user_agent (rq : http_request) : Prop :=
  In ("User-Agent", USER_AGENT) (rq_headers rq).

Definition shaped_by_method (body : string) (rq : http_request) : Prop :=
  (rq_method rq = "GET"
   /\ rq_headers rq = [("User-Agent", USER_AGENT)] /\ rq_data rq = None)
  \/ (rq_method rq = "POST"
      /\ rq_headers rq = [("User-Agent", USER_AGENT); ("Content-Type", CONTENT_TYPE)]
      /\ rq_data rq = Some body).


(** [p] holds neither a carriage return nor a line feed. *)
Definition no_newline_char (p : string) : bool :=
  none_of (fun c => Ascii.eqb c Py.CR || Ascii.eqb c Py.LF) p.


(** * Properties *)

(** ** Strings *)

#[local] Arguments String.append !s1 s2 : simpl nomatch.

Lemma append_nil_r (s : string) : s +:+ EmptyString = s.
Proof. induction s as [|c s IH]; simpl; [reflexivity | now rewrite IH]. Qed.

Lemma append_assoc (a b c : string) : (a +:+ b) +:+ c = a +:+ (b +:+ c).
Proof. induction a as [|x a IH]; simpl; [reflexivity | now rewrite IH]. Qed.

Lemma length_append (a b : string) :
  String.length (a +:+ b) = (String.length a + String.length b)%nat.
Proof. induction a as [|x a IH]; simpl; [reflexivity | now rewrite IH]. Qed.

Lemma none_of_append p (a b : string) :
  none_of p (a +:+ b) = none_of p a && none_of p b.
Proof.
  induction a as [|x a IH]; cbn [none_of String.append]; [reflexivity |].
  now rewrite IH, andb_assoc.
Qed.

Lemma prefix_refl_append (sub post : string) : Py.prefix sub (sub +:+ post) = true.
Proof.
  induction sub as [|c sub IH]; simpl; [reflexivity |].
  now rewrite Ascii.eqb_refl.
Qed.

Lemma prefix_head_ne c0 sub c s :
  c <> c0 -> Py.prefix (String c0 sub) (String c s) = false.
Proof.
  intros Hne. simpl. destruct (Ascii.eqb_spec c0 c); [congruence | reflexivity].
Qed.

Lemma find_from_occurs (sub s : string) (i : Z) :
  0 <= i -> (Py.find_from sub s i = -1 <-> occurs sub s = false).
Proof.
  revert i. induction s as [|c s IH]; intros i Hi.
  - simpl. destruct (Py.prefix sub EmptyString); simpl; split; intros; try lia; congruence.
  - simpl. destruct (Py.prefix sub (String c s)); simpl.
    + split; intros; [lia | congruence].
    + apply IH. lia.
Qed.

Lemma find_occurs (s sub : string) : Py.find s sub = -1 <-> occurs sub s = false.
Proof. unfold Py.find. apply find_from_occurs. lia. Qed.

Lemma occurs_append_r (sub pre s : string) :
  occurs sub s = true -> occurs sub (pre +:+ s) = true.
Proof.
  intros H. induction pre as [|c pre IH]; simpl; [exact H |].
  rewrite IH. apply orb_true_r.
Qed.

Lemma occurs_middle (sub pre post : string) : occurs sub (pre +:+ sub +:+ post) = true.
Proof.
  apply occurs_append_r. destruct sub as [|a sub]; [now destruct post |].
  simpl. now rewrite Ascii.eqb_refl, prefix_refl_append.
Qed.

(** A text none of whose characters starts [sub] cannot hold the start of
    an occurrence. *)
Lemma occurs_skip c0 sub (x rest : string) :
  none_of (Ascii.eqb c0) x = true ->
  occurs (String c0 sub) (x +:+ rest) = occurs (String c0 sub) rest.
Proof.
  induction x as [|c x IH]; intros H; [reflexivity |].
  cbn [none_of] in H. apply andb_true_iff in H as [Hc Hx].
  apply negb_true_iff, Ascii.eqb_neq in Hc.
  change (String c x +:+ rest) with (String c (x +:+ rest)).
  cbn [occurs]. rewrite prefix_head_ne by congruence. simpl. auto.
Qed.

Lemma none_of_weaken (p r : ascii -> bool) (s : string) :
  (forall c, r c = true -> p c = true) -> none_of p s = true -> none_of r s = true.
Proof.
  intros Hpr. induction s as [|c s IH]; cbn [none_of]; [reflexivity |].
  intros H. apply andb_true_iff in H as [Hc Hs].
  rewrite IH by exact Hs. rewrite andb_true_r.
  destruct (r c) eqn:E; [| reflexivity]. apply Hpr in E. now rewrite E in Hc.
Qed.

(** ** [replace] and [splitlines] along a text without line boundaries *)

Lemma convert_newlines_append (p rest : string) :
  none_of (Ascii.eqb Py.CR) p = true ->
  OFXFile._convert_newlines (p +:+ rest) = p +:+ OFXFile._convert_newlines rest.
Proof.
  unfold OFXFile._convert_newlines, Py.replace.
  induction p as [|c p IH]; intros H; [reflexivity |].
  cbn [none_of] in H. apply andb_true_iff in H as [Hc Hp].
  apply negb_true_iff, Ascii.eqb_neq in Hc.
  change (String c p +:+ rest) with (String c (p +:+ rest)).
  cbn [Py.replace_aux]. rewrite prefix_head_ne by congruence.
  now rewrite IH.
Qed.

Lemma plain_no_cr (s : string) : plain s = true -> none_of (Ascii.eqb Py.CR) s = true.
Proof.
  apply none_of_weaken. intros c Hc. apply Ascii.eqb_eq in Hc. now subst c.
Qed.

Lemma splitlines_line (l rest : string) :
  plain l = true ->
  Py.splitlines (l +:+ String Py.LF rest) = l :: Py.splitlines rest.
Proof.
  unfold plain. induction l as [|c l IH]; intros H.
  - destruct rest; reflexivity.
  - cbn [none_of] in H. apply andb_true_iff in H as [Hc Hl].
    apply negb_true_iff in Hc.
    change (String c l +:+ String Py.LF rest) with (String c (l +:+ String Py.LF rest)).
    cbn [Py.splitlines]. rewrite Hc, IH by exact Hl. reflexivity.
Qed.

(** ** [split] on the colon *)

Lemma split_no_colon (s : string) :
  none_of is_colon s = true -> Py.split s ":" = [s].
Proof.
  induction s as [|c s IH]; cbn [none_of Py.split]; [reflexivity |].
  intros H. apply andb_true_iff in H as [Hc Hs].
  apply negb_true_iff in Hc. unfold is_colon in Hc. rewrite Hc, IH by exact Hs.
  reflexivity.
Qed.

Lemma split_field (k v : string) :
  none_of is_colon k = true -> none_of is_colon v = true ->
  Py.split (k +:+ String ":" v) ":" = [k; v].
Proof.
  intros Hk Hv. induction k as [|c k IH]; cbn [String.append Py.split].
  - rewrite Ascii.eqb_refl. now rewrite split_no_colon.
  - cbn [none_of] in Hk. apply andb_true_iff in Hk as [Hc Hk].
    apply negb_true_iff in Hc. unfold is_colon in Hc. rewrite Hc, IH by exact Hk.
    reflexivity.
Qed.

Lemma split_length (s : string) : length (Py.split s ":") = S (colons s).
Proof.
  induction s as [|c s IH]; cbn [Py.split colons]; [reflexivity |].
  unfold is_colon. destruct (Ascii.eqb c ":"); cbn [length]; [now rewrite IH |].
  destruct (Py.split s ":"); cbn [length] in *; [discriminate | exact IH].
Qed.

Lemma colons_zero (s : string) : colons s = O -> none_of is_colon s = true.
Proof.
  induction s as [|c s IH]; cbn [colons none_of]; [reflexivity |].
  destruct (is_colon c); cbn [negb andb]; [discriminate | exact IH].
Qed.

Lemma split_one_colon (s : string) :
  colons s = 1%nat -> Py.split s ":" = [before_colon s; after_colon s].
Proof.
  induction s as [|c s IH]; cbn [colons Py.split before_colon after_colon];
    [discriminate |].
  unfold is_colon. destruct (Ascii.eqb c ":"); intros H.
  - injection H as H. now rewrite split_no_colon by now apply colons_zero.
  - now rewrite IH.
Qed.

(** ** Texts made of lines *)

Lemma unlines_append_cons (l : string) (ls : list string) (rest : string) :
  unlines (l :: ls) +:+ rest = l +:+ String Py.LF (unlines ls +:+ rest).
Proof. cbn [unlines]. now rewrite append_assoc. Qed.

Lemma splitlines_unlines (ls : list string) (rest : string) :
  Forall (fun l => plain l = true) ls ->
  Py.splitlines (unlines ls +:+ rest) = (ls ++ Py.splitlines rest)%list.
Proof.
  induction 1 as [|l ls Hl _ IH]; [reflexivity |].
  rewrite unlines_append_cons, splitlines_line by exact Hl.
  now rewrite IH.
Qed.

Lemma convert_newlines_unlines (ls : list string) (rest : string) :
  Forall (fun l => plain l = true) ls ->
  OFXFile._convert_newlines (unlines ls +:+ rest)
  = unlines ls +:+ OFXFile._convert_newlines rest.
Proof.
  induction 1 as [|l ls Hl _ IH]; [reflexivity |].
  rewrite !unlines_append_cons.
  rewrite convert_newlines_append by now apply plain_no_cr.
  change (String Py.LF (unlines ls +:+ rest))
    with (String Py.LF EmptyString +:+ (unlines ls +:+ rest)).
  rewrite convert_newlines_append by reflexivity.
  now rewrite IH.
Qed.

Lemma prefix_split (p s : string) :
  Py.prefix p s = true -> exists rest, s = p +:+ rest.
Proof.
  revert s. induction p as [|a p IH]; intros s H.
  - now exists s.
  - destruct s as [|b s]; cbn [Py.prefix] in H; [discriminate |].
    apply andb_true_iff in H as [Hab Hp]. apply Ascii.eqb_eq in Hab. subst b.
    destruct (IH s Hp) as [rest ->]. now exists rest.
Qed.

(** ** The scan of the header region *)

Lemma scan_lines_stop (line : string) (lines : list string) (h : gmap string string) :
  ends_header line = true -> OFXFile.scan_lines (line :: lines) h = (h, Ret tt).
Proof. unfold ends_header. cbn [OFXFile.scan_lines]. now intros ->. Qed.

Lemma scan_lines_store (line : string) (lines : list string) (h : gmap string string) :
  ends_header line = false -> colons line = 1%nat ->
  OFXFile.scan_lines (line :: lines) h = OFXFile.scan_lines lines (store_line h line).
Proof.
  unfold ends_header. cbn [OFXFile.scan_lines]. intros -> Hc.
  now rewrite split_one_colon.
Qed.

Lemma scan_lines_unpack (line : string) (lines : list string) (h : gmap string string) :
  ends_header line = false -> colons line <> 1%nat ->
  exists msg, OFXFile.scan_lines (line :: lines) h = (h, Raise (ValueError msg)).
Proof.
  unfold ends_header. cbn [OFXFile.scan_lines]. intros -> Hc.
  pose proof (split_length line) as Hlen.
  destruct (Py.split line ":") as [|a [|b [|c l]]]; cbn [length] in Hlen.
  - eauto.
  - eauto.
  - congruence.
  - eauto.
Qed.

Lemma region_cons_inv (lines : list string) (l : string) (ls : list string) :
  region lines = l :: ls ->
  exists lines', lines = l :: lines' /\ ends_header l = false /\ region lines' = ls.
Proof.
  destruct lines as [|x lines]; cbn [region]; [discriminate |].
  destruct (ends_header x) eqn:E; [discriminate |].
  intros [= -> <-]. eauto.
Qed.

Lemma scan_lines_region_ok (lines : list string) (h : gmap string string) :
  Forall (fun l => colons l = 1%nat) (region lines) ->
  OFXFile.scan_lines lines h = (store_lines (region lines) h, Ret tt).
Proof.
  revert h. induction lines as [|l lines IH]; intros h Hall; [reflexivity |].
  cbn [region] in *. destruct (ends_header l) eqn:E.
  - now apply scan_lines_stop.
  - inversion Hall as [|? ? Hl Hrest]; subst.
    rewrite scan_lines_store by assumption. now rewrite IH.
Qed.

Lemma scan_lines_region_err (lines pre post : list string) (l : string)
    (h : gmap string string) :
  region lines = (pre ++ l :: post)%list ->
  Forall (fun l => colons l = 1%nat) pre -> colons l <> 1%nat ->
  exists msg,
    OFXFile.scan_lines lines h = (store_lines pre h, Raise (ValueError msg)).
Proof.
  revert lines h. induction pre as [|p pre IH]; intros lines h Hreg Hpre Hl.
  - apply region_cons_inv in Hreg as (lines' & -> & Hend & _).
    now apply scan_lines_unpack.
  - apply region_cons_inv in Hreg as (lines' & -> & Hend & Hreg).
    inversion Hpre as [|? ? Hp Hpre']; subst.
    rewrite scan_lines_store by assumption.
    destruct (IH lines' (store_line h p) Hreg Hpre' Hl) as [msg ->]. now exists msg.
Qed.

(** ** What the client renders *)

Ltac eval_pieces :=
  repeat match goal with
  | |- context [Py.pieces false ?t] =>
      let r := eval vm_compute in (Py.pieces false t) in
      change (Py.pieces false t) with r
  end.

Ltac str_norm :=
  repeat (progress (cbn; rewrite ?append_assoc, ?append_nil_r)).

Lemma init_gen1 timeout wait use_cache output (v : string) :
  OFXTestClient.__init__ timeout wait use_cache output (String "1" v)
  = Ret {| OFXTestClient.timeout := timeout; OFXTestClient.wait := wait;
           OFXTestClient.use_cache := use_cache; OFXTestClient._output := output;
           OFXTestClient.version := String "1" v;
           OFXTestClient.ofxheader := unlines (gen1_lines (String "1" v));
           OFXTestClient.content_type := "text/sgml" |}.
Proof. reflexivity. Qed.

Lemma init_gen2 timeout wait use_cache output (v : string) :
  OFXTestClient.__init__ timeout wait use_cache output (String "2" v)
  = Ret {| OFXTestClient.timeout := timeout; OFXTestClient.wait := wait;
           OFXTestClient.use_cache := use_cache; OFXTestClient._output := output;
           OFXTestClient.version := String "2" v;
           OFXTestClient.ofxheader := unlines (gen2_lines (String "2" v));
           OFXTestClient.content_type := "text/xml" |}.
Proof.
  unfold OFXTestClient.__init__, Py.format. eval_pieces.
  unfold q. str_norm. reflexivity.
Qed.

Lemma format_join (a b c : string) :
  Py.format "{}{}{}" [a; b; c] [] = Ret (a +:+ b +:+ c).
Proof. unfold Py.format. eval_pieces. cbn. now rewrite append_nil_r. Qed.

(** The signon fragment of a client of either content type: the lines up
    to [LANGUAGE], the [<FI>] block if a server is given, and the lines
    from [APPID] on. *)
Lemma signon_sgml localtime (self : OFXTestClient.t) (si : option OFXServerInstance.t) :
  OFXTestClient.content_type self = "text/sgml" ->
  OFXTestClient._get_signonmsg_anonymous_payload localtime self si
  = Ret (unlines ["<SIGNONMSGSRQV1>"; "<SONRQ>"; "<DTCLIENT>" +:+ dt_now localtime;
                  "<USERID>anonymous00000000000000000000000";
                  "<USERPASS>anonymous00000000000000000000000";
                  "<GENUSERKEY>N"; "<LANGUAGE>ENG"]
         +:+ match si with Some s => fi_block "text/sgml" s | None => EmptyString end
         +:+ "<APPID>QWIN
<APPVER>2700
</SONRQ>
</SIGNONMSGSRQV1>").
Proof.
  intros Hct. unfold OFXTestClient._get_signonmsg_anonymous_payload. rewrite Hct.
  generalize (dt_now localtime) as dt. intros dt.
  destruct si as [s|]; unfold Py.format; eval_pieces; str_norm; reflexivity.
Qed.

Lemma signon_xml localtime (self : OFXTestClient.t) (si : option OFXServerInstance.t) :
  OFXTestClient.content_type self = "text/xml" ->
  OFXTestClient._get_signonmsg_anonymous_payload localtime self si
  = Ret (unlines ["<SIGNONMSGSRQV1>"; "<SONRQ>";
                  "<DTCLIENT>" +:+ dt_now localtime +:+ "</DTCLIENT>";
                  "<USERID>anonymous00000000000000000000000</USERID>";
                  "<USERPASS>anonymous00000000000000000000000</USERPASS>";
                  "<GENUSERKEY>N</GENUSERKEY>"; "<LANGUAGE>ENG</LANGUAGE>"]
         +:+ match si with Some s => fi_block "text/xml" s | None => EmptyString end
         +:+ "<APPID>QWIN</APPID>
<APPVER>2700</APPVER>
</SONRQ>
</SIGNONMSGSRQV1>").
Proof.
  intros Hct. unfold OFXTestClient._get_signonmsg_anonymous_payload. rewrite Hct.
  generalize (dt_now localtime) as dt. intros dt.
  destruct si as [s|]; unfold Py.format; eval_pieces; str_norm; reflexivity.
Qed.

(** Every payload with a header is the header, a line feed and a body. *)
Lemma profile_payload_shape localtime uuid4 (self : OFXTestClient.t)
    (si : option OFXServerInstance.t) :
  OFXTestClient.content_type self = "text/sgml"
  \/ OFXTestClient.content_type self = "text/xml" ->
  exists body,
    OFXTestClient.get_profile_payload localtime uuid4 self si
    = Ret (OFXTestClient.ofxheader self +:+ String Py.LF body).
Proof.
  intros [Hct|Hct]; unfold OFXTestClient.get_profile_payload.
  - rewrite (signon_sgml _ _ _ Hct), Hct.
    cbn [String.eqb Ascii.eqb Bool.eqb res_bind].
    unfold Py.format at 1. eval_pieces.
    cbn [Py.render Py.assoc String.eqb Ascii.eqb Bool.eqb res_bind].
    rewrite format_join. eauto.
  - rewrite (signon_xml _ _ _ Hct), Hct.
    cbn [String.eqb Ascii.eqb Bool.eqb res_bind].
    unfold Py.format at 1. eval_pieces.
    cbn [Py.render Py.assoc String.eqb Ascii.eqb Bool.eqb res_bind].
    rewrite format_join. eauto.
Qed.

(** ** Parsing a document that opens with the version 1 header block *)

Lemma none_of_colons (s : string) : none_of is_colon s = true -> colons s = O.
Proof.
  induction s as [|c s IH]; cbn [colons none_of]; [reflexivity |].
  destruct (is_colon c); cbn [negb andb]; [discriminate | exact IH].
Qed.

Lemma gen1_lines_plain (v : string) :
  plain v = true -> Forall (fun l => plain l = true) (gen1_lines v).
Proof.
  intros Hv. unfold gen1_lines.
  repeat constructor.
  unfold plain. now rewrite none_of_append.
Qed.

Lemma version_line_stored (v : string) :
  (String.length v <= 5)%nat -> none_of is_colon v = true ->
  ends_header ("VERSION:" +:+ v) = false
  /\ colons ("VERSION:" +:+ v) = 1%nat
  /\ forall h, store_line h ("VERSION:" +:+ v) = <["VERSION" := v]> h.
Proof.
  intros Hlen Hcol. split; [| split].
  - unfold ends_header, Py.len. cbn [String.append String.length].
    cbn [String.eqb Py.startswith Py.prefix Ascii.eqb Bool.eqb orb andb].
    apply Z.ltb_ge. lia.
  - cbn. now rewrite none_of_colons.
  - reflexivity.
Qed.

(** The scan stores the first four fields and stops at the [ENCODING]
    line, whose sixteen characters exceed the bound of thirteen. *)
Lemma scan_gen1_lines (v : string) (more : list string) (h : gmap string string) :
  (String.length v <= 5)%nat -> none_of is_colon v = true ->
  OFXFile.scan_lines (gen1_lines v ++ more) h
  = (<["SECURITY" := "NONE"]> (<["VERSION" := v]>
       (<["DATA" := "OFXSGML"]> (<["OFXHEADER" := "100"]> h))), Ret tt).
Proof.
  intros Hlen Hcol.
  destruct (version_line_stored v Hlen Hcol) as (Hend & Hone & Hstore).
  unfold gen1_lines. cbn [app].
  rewrite scan_lines_store by reflexivity.
  rewrite scan_lines_store by reflexivity.
  rewrite scan_lines_store by assumption.
  rewrite scan_lines_store by reflexivity.
  rewrite scan_lines_stop by reflexivity.
  rewrite Hstore. reflexivity.
Qed.

Lemma parse_gen1_document (v body : string) (h : gmap string string) :
  plain v = true -> none_of is_colon v = true -> (String.length v <= 5)%nat ->
  OFXFile.__init__ (unlines (gen1_lines v) +:+ String Py.LF body) h
  = (<["SECURITY" := "NONE"]> (<["VERSION" := v]>
       (<["DATA" := "OFXSGML"]> (<["OFXHEADER" := "100"]> h))),
     Ret {| OFXFile._file_str :=
              unlines (gen1_lines v)
              +:+ String Py.LF (OFXFile._convert_newlines body);
            OFXFile.version := Some v |}).
Proof.
  intros Hplain Hcol Hlen. unfold OFXFile.__init__.
  rewrite convert_newlines_unlines by now apply gen1_lines_plain.
  change (String Py.LF body) with (String Py.LF EmptyString +:+ body).
  rewrite convert_newlines_append by reflexivity.
  change (String Py.LF EmptyString +:+ OFXFile._convert_newlines body)
    with (String Py.LF (OFXFile._convert_newlines body)).
  unfold OFXFile._parse_header.
  replace (Py.startswith _ "OFXHEADER") with true by reflexivity.
  rewrite splitlines_unlines by now apply gen1_lines_plain.
  rewrite scan_gen1_lines by assumption.
  unfold OFXFile.read_version, dict_getitem, HDR_VERSION.
  rewrite lookup_insert_ne by discriminate. rewrite lookup_insert_eq.
  reflexivity.
Qed.

(** ** The version 2 pattern on the documents the client renders *)

Lemma strip_append (lit s : string) : Re.strip lit (lit +:+ s) = Some s.
Proof.
  induction lit as [|c lit IH]; [reflexivity |].
  cbn [String.append Re.strip]. now rewrite Ascii.eqb_refl.
Qed.

Lemma strip_clash (lit s rest : string) :
  clash lit s = true -> Re.strip lit (s +:+ rest) = None.
Proof.
  revert s. induction lit as [|a lit IH]; intros s H; [discriminate |].
  destruct s as [|b s]; [discriminate |].
  cbn [clash] in H. cbn [String.append Re.strip].
  destruct (Ascii.eqb a b); [now apply IH | reflexivity].
Qed.

Lemma search_no_start (lit : string) (p : list Re.item) (x rest : string) :
  no_start lit x = true ->
  Re.search (Re.RLit lit :: p) (x +:+ rest) = Re.search (Re.RLit lit :: p) rest.
Proof.
  induction x as [|c x IH]; intros H; [reflexivity |].
  cbn [no_start] in H. apply andb_true_iff in H as [Hc Hx].
  change (String c x +:+ rest) with (String c (x +:+ rest)).
  cbn [Re.search Re.match_here].
  change (String c (x +:+ rest)) with (String c x +:+ rest).
  rewrite strip_clash by exact Hc. now apply IH.
Qed.

Lemma clash_append (lit s b : string) :
  clash lit s = true -> clash lit (s +:+ b) = true.
Proof.
  revert s. induction lit as [|x lit IH]; intros s H; [discriminate |].
  destruct s as [|y s]; [discriminate |].
  cbn [clash] in H. cbn [String.append clash].
  destruct (Ascii.eqb x y); [now apply IH | reflexivity].
Qed.

Lemma no_start_append (lit a b : string) :
  no_start lit a = true -> no_start lit b = true -> no_start lit (a +:+ b) = true.
Proof.
  intros Ha Hb. induction a as [|c a IH]; [exact Hb |].
  cbn [no_start] in Ha. apply andb_true_iff in Ha as [Hc Ha].
  change (String c a +:+ b) with (String c (a +:+ b)). cbn [no_start].
  rewrite IH by exact Ha. rewrite andb_true_r.
  change (String c (a +:+ b)) with (String c a +:+ b). now apply clash_append.
Qed.

Lemma no_start_none_of (d : ascii) (lit x : string) :
  none_of (Ascii.eqb d) x = true -> no_start (String d lit) x = true.
Proof.
  induction x as [|c x IH]; intros H; [reflexivity |].
  cbn [none_of] in H. apply andb_true_iff in H as [Hc Hx].
  apply negb_true_iff in Hc. cbn [no_start clash]. rewrite Hc. now apply IH.
Qed.

(** A group takes a whole run of its class when the rest of the pattern
    cannot start inside the run. *)
Lemma plus_run (cls : ascii -> bool) (cont : string -> string -> option Re.groups) :
  (forall g c s, cls c = true -> cont g (String c s) = None) ->
  forall (v : string) (c0 : ascii) (g R : string),
    cls c0 = true -> all_of cls v = true ->
    (forall r R', R = String r R' -> cls r = false) ->
    Re.plus cls cont g (String c0 (v +:+ R)) = cont (g +:+ String c0 v) R.
Proof.
  intros Hcont. induction v as [|c1 v IH]; intros c0 g R Hc0 Hv HR.
  - cbn [String.append Re.plus]. rewrite Hc0.
    destruct R as [|r R']; cbn [Re.plus]; [reflexivity |].
    now rewrite (HR r R' eq_refl).
  - cbn [all_of] in Hv. apply andb_true_iff in Hv as [Hc1 Hv].
    change (String c1 v +:+ R) with (String c1 (v +:+ R)).
    cbn [Re.plus]. rewrite Hc0.
    change (match Re.plus cls cont (g +:+ String c0 EmptyString)
                    (String c1 (v +:+ R)) with
            | Some r => Some r
            | None => cont (g +:+ String c0 EmptyString) (String c1 (v +:+ R))
            end = cont (g +:+ String c0 (String c1 v)) R).
    rewrite IH by assumption. rewrite append_assoc. cbn [String.append].
    destruct (cont (g +:+ String c0 (String c1 v)) R); [reflexivity |].
    now apply Hcont.
Qed.

Lemma strip_head (cls : ascii -> bool) (d : ascii) (lit : string) (c : ascii)
    (s : string) :
  cls d = false -> cls c = true -> Re.strip (String d lit) (String c s) = None.
Proof.
  intros Hd Hc. cbn [Re.strip].
  destruct (Ascii.eqb_spec d c) as [-> | _]; [congruence | reflexivity].
Qed.

Lemma match_here_lit (lit : string) (p : list Re.item) (s : string) :
  Re.match_here (Re.RLit lit :: p) (lit +:+ s) = Re.match_here p s.
Proof. cbn [Re.match_here]. now rewrite strip_append. Qed.

Lemma group_run (name : string) (cls : ascii -> bool) (lit : string)
    (p : list Re.item) (c0 : ascii) (v R : string) :
  (forall c s, cls c = true -> Re.strip lit (String c s) = None) ->
  cls c0 = true -> all_of cls v = true ->
  (forall r R', R = String r R' -> cls r = false) ->
  Re.match_here (Re.RGroup name cls :: Re.RLit lit :: p) (String c0 v +:+ R)
  = option_map (cons (name, String c0 v)) (Re.match_here (Re.RLit lit :: p) R).
Proof.
  intros Hlit Hc0 Hv HR.
  change (String c0 v +:+ R) with (String c0 (v +:+ R)).
  cbn [Re.match_here]. rewrite plus_run; try assumption; [reflexivity |].
  intros g c s Hc. now rewrite Hlit.
Qed.

Lemma quiet_append (a b : string) :
  quiet a = true -> quiet b = true -> quiet (a +:+ b) = true.
Proof.
  unfold quiet. intros Ha Hb.
  apply andb_true_iff in Ha as [Ha1 Ha2]. apply andb_true_iff in Hb as [Hb1 Hb2].
  rewrite none_of_append, Ha1, Hb1. now rewrite no_start_append.
Qed.

Lemma tame_quiet (s : string) : tame s = true -> quiet s = true.
Proof.
  unfold tame, quiet. intros H. apply andb_true_iff. split.
  - revert H. apply none_of_weaken. intros c Hc.
    apply Ascii.eqb_eq in Hc. subst c. reflexivity.
  - apply no_start_none_of. revert H. apply none_of_weaken. intros c Hc.
    apply Ascii.eqb_eq in Hc. subst c. reflexivity.
Qed.

Lemma digits_tame (s : string) : all_of Re.digit s = true -> tame s = true.
Proof.
  unfold tame. induction s as [|c s IH]; cbn [all_of none_of]; [reflexivity |].
  intros H. apply andb_true_iff in H as [Hc Hs]. rewrite IH by exact Hs.
  rewrite andb_true_r. apply negb_true_iff, orb_false_iff. split.
  - destruct (Ascii.eqb_spec c "<") as [-> | _]; [discriminate | reflexivity].
  - destruct (Ascii.eqb_spec c Py.CR) as [-> | _]; [discriminate | reflexivity].
Qed.

Lemma uint_none_of (p : ascii -> bool) (d : Decimal.uint) :
  all_of (fun c => negb (p c)) "0123456789" = true ->
  none_of p (NilEmpty.string_of_uint d) = true.
Proof.
  cbn [all_of]. intros H. repeat (apply andb_true_iff in H as [? H]).
  induction d; cbn [NilEmpty.string_of_uint none_of]; try reflexivity;
    rewrite IHd, andb_true_r; assumption.
Qed.

Lemma dt_now_tame (localtime : struct_time) : tame (dt_now localtime) = true.
Proof.
  unfold tame, dt_now. cbn [strftime].
  repeat (rewrite none_of_append; apply andb_true_intro; split;
          [first [apply uint_none_of; reflexivity
                 | unfold directive, dec2; cbn [Ascii.eqb Bool.eqb];
                   match goal with |- context [(?n <? 10)%nat] => destruct (n <? 10)%nat end;
                   [rewrite none_of_append; apply andb_true_intro; split;
                    [reflexivity | apply uint_none_of; reflexivity]
                   | apply uint_none_of; reflexivity]] |]).
  reflexivity.
Qed.

Lemma upper_tame (s : string) : tame s = true -> tame (Py.upper s) = true.
Proof.
  unfold tame. induction s as [|c s IH]; cbn [Py.upper none_of]; [reflexivity |].
  intros H. apply andb_true_iff in H as [Hc Hs]. rewrite IH by exact Hs.
  rewrite andb_true_r. unfold Py.upper_char.
  destruct ((97 <=? nat_of_ascii c)%nat && (nat_of_ascii c <=? 122)%nat) eqn:E;
    [| exact Hc].
  apply andb_true_iff in E as [Hlo Hhi].
  apply Nat.leb_le in Hlo, Hhi.
  assert (Hn : exists k, (k < 26)%nat /\ nat_of_ascii c = (97 + k)%nat)
    by (exists (nat_of_ascii c - 97)%nat; lia).
  destruct Hn as (k & Hk & ->).
  replace (97 + k - 32)%nat with (65 + k)%nat by lia.
  do 26 (destruct k as [|k]; [reflexivity |]). lia.
Qed.

(** The rendered instruction is not matched where it starts: after
    OLDFILEUID the pattern wants a space and meets the line feed. *)
Lemma rendered_instruction_not_matched (v rest : string) :
  all_of Re.digit v = true ->
  Re.match_here OFXFile.rpat (rendered_instruction v rest) = None.
Proof.
  unfold rendered_instruction.
  intros Hv. unfold OFXFile.rpat. fold rpat_start.
  rewrite match_here_lit.
  rewrite group_run;
    [| intros c s Hc; now apply (strip_head Re.digit) | reflexivity | reflexivity
     | intros r R' [= <- _]; reflexivity].
  rewrite match_here_lit.
  rewrite group_run;
    [| intros c s Hc; now apply (strip_head Re.digit) | reflexivity | exact Hv
     | intros r R' [= <- _]; reflexivity].
  rewrite match_here_lit.
  rewrite group_run;
    [| intros c s Hc; now apply (strip_head Re.word) | reflexivity | reflexivity
     | intros r R' [= <- _]; reflexivity].
  rewrite match_here_lit.
  rewrite group_run;
    [| intros c s Hc; now apply (strip_head Re.word) | reflexivity | reflexivity
     | intros r R' [= <- _]; reflexivity].
  reflexivity.
Qed.

Lemma quiet_no_cr (s : string) : quiet s = true -> none_of (Ascii.eqb Py.CR) s = true.
Proof. unfold quiet. intros H. now apply andb_true_iff in H as [H _]. Qed.

Lemma quiet_no_start (s : string) : quiet s = true -> no_start rpat_start s = true.
Proof. unfold quiet. intros H. now apply andb_true_iff in H as [_ H]. Qed.

Lemma quiet_unlines (ls : list string) :
  Forall (fun l => quiet l = true) ls -> quiet (unlines ls) = true.
Proof.
  induction 1 as [|l ls Hl _ IH]; [reflexivity |].
  cbn [unlines]. apply quiet_append; [exact Hl |].
  change (String Py.LF (unlines ls)) with (String Py.LF EmptyString +:+ unlines ls).
  now apply quiet_append.
Qed.

Lemma convert_newlines_id (s : string) :
  none_of (Ascii.eqb Py.CR) s = true -> OFXFile._convert_newlines s = s.
Proof.
  intros H. rewrite <- (append_nil_r s) at 1.
  rewrite convert_newlines_append by exact H. apply append_nil_r.
Qed.

Lemma search_rpat_skip (x rest : string) :
  no_start rpat_start x = true ->
  Re.search OFXFile.rpat (x +:+ rest) = Re.search OFXFile.rpat rest.
Proof. apply search_no_start. Qed.

Lemma search_next (p : list Re.item) (c : ascii) (s : string) :
  Re.match_here p (String c s) = None ->
  Re.search p (String c s) = Re.search p s.
Proof. intros H. cbn [Re.search]. now rewrite H. Qed.

Lemma search_quiet (s : string) :
  quiet s = true -> Re.search OFXFile.rpat s = None.
Proof.
  intros H. rewrite <- (append_nil_r s).
  rewrite search_rpat_skip by now apply quiet_no_start. reflexivity.
Qed.

Ltac quiet_chain :=
  repeat first
    [ reflexivity
    | assumption
    | apply tame_quiet; assumption
    | apply quiet_append ].

(** What follows the first character of the rendered instruction holds no
    start of the pattern. *)
Lemma rendered_instruction_tail_quiet (v rest : string) :
  all_of Re.digit v = true -> quiet rest = true ->
  exists t, rendered_instruction v rest = String "<" t /\ quiet t = true.
Proof.
  intros Hv Hrest.
  assert (Hv2 : tame (String "2" v) = true) by (apply digits_tame; exact Hv).
  exists (("?OFX OFXHEADER=" +:+ Py.DQ) +:+ "200" +:+ (Py.DQ +:+ " VERSION=" +:+ Py.DQ)
          +:+ String "2" v +:+ (Py.DQ +:+ " SECURITY=" +:+ Py.DQ)
          +:+ "NONE" +:+ (Py.DQ +:+ " OLDFILEUID=" +:+ Py.DQ)
          +:+ "NONE" +:+ (Py.DQ +:+ String Py.LF EmptyString) +:+ rest).
  split; [reflexivity |]. quiet_chain.
Qed.

(** A text that opens with the version 2 header block the client renders
    and goes on without a start of the pattern is rejected by the parser,
    whatever the digits of the version. *)
Lemma gen2_document_not_parsed (v rest : string) (h : gmap string string) :
  all_of Re.digit v = true -> quiet rest = true ->
  OFXFile.__init__ (unlines (gen2_lines (String "2" v)) +:+ rest) h
  = (h, Raise (ValueError "Parse Error: Unable to parse V2 header with regex")).
Proof.
  intros Hv Hrest.
  set (A := "<?xml version=" +:+ q "1.0" +:+ " encoding=" +:+ q "UTF-8"
            +:+ " standalone=" +:+ q "no" +:+ "?>" +:+ String Py.LF EmptyString).
  set (R := "NEWFILEUID=" +:+ q "NONE" +:+ "?>" +:+ String Py.LF EmptyString +:+ rest).
  assert (HR : quiet R = true) by (unfold R, q; quiet_chain).
  assert (Hform : unlines (gen2_lines (String "2" v)) +:+ rest
                  = A +:+ rendered_instruction v R).
  { unfold gen2_lines, rendered_instruction, rpat_start, A, R, q.
    str_norm. reflexivity. }
  rewrite Hform.
  destruct (rendered_instruction_tail_quiet v R Hv HR) as (t & Ht & Hqt).
  assert (Hcr : none_of (Ascii.eqb Py.CR) (A +:+ rendered_instruction v R) = true).
  { rewrite none_of_append, Ht. cbn [none_of].
    rewrite (quiet_no_cr t Hqt). reflexivity. }
  unfold OFXFile.__init__. rewrite convert_newlines_id by exact Hcr.
  unfold OFXFile._parse_header.
  replace (Py.startswith (A +:+ rendered_instruction v R) "OFXHEADER") with false
    by reflexivity.
  replace (Py.find (A +:+ rendered_instruction v R) "<?OFX OFXHEADER") with 55
    by reflexivity.
  cbn [Z.eqb negb].
  assert (Hsearch : Re.search OFXFile.rpat (A +:+ rendered_instruction v R) = None).
  { rewrite search_rpat_skip by reflexivity.
    pose proof (rendered_instruction_not_matched v R Hv) as Hhere.
    rewrite Ht in *. rewrite search_next by exact Hhere.
    now apply search_quiet. }
  now rewrite Hsearch.
Qed.

Lemma profile_payload_xml localtime uuid4 (self : OFXTestClient.t)
    (si : option OFXServerInstance.t) (signonmsg : string) :
  OFXTestClient.content_type self = "text/xml" ->
  OFXTestClient._get_signonmsg_anonymous_payload localtime self si = Ret signonmsg ->
  OFXTestClient.get_profile_payload localtime uuid4 self si
  = Ret (OFXTestClient.ofxheader self
         +:+ String Py.LF (profile_body_xml signonmsg (uid uuid4))).
Proof.
  intros Hct Hs. unfold OFXTestClient.get_profile_payload. rewrite Hs, Hct.
  cbn [String.eqb Ascii.eqb Bool.eqb res_bind].
  unfold Py.format at 1. eval_pieces.
  cbn [Py.render Py.assoc String.eqb Ascii.eqb Bool.eqb res_bind].
  rewrite format_join. unfold profile_body_xml.
  rewrite ?append_assoc, ?append_nil_r. reflexivity.
Qed.

(** For every numeric version string that starts with 2 the profile
    request the client renders is rejected by the parser of the same
    module, provided the transaction id and the server's FID and ORG hold
    no [<] and no carriage return: the round trip of the version is lost
    for the whole of the second generation. *)
Lemma gen2_profile_never_parsed timeout wait use_cache output localtime uuid4
    (v : string) (si : option OFXServerInstance.t) (h : gmap string string) :
  all_of Re.digit v = true ->
  tame uuid4 = true ->
  (forall s, si = Some s ->
     tame (OFXServerInstance.org s) = true /\ tame (OFXServerInstance.fid s) = true) ->
  exists self doc,
    OFXTestClient.__init__ timeout wait use_cache output (String "2" v) = Ret self
    /\ OFXTestClient.get_profile_payload localtime uuid4 self si = Ret doc
    /\ OFXFile.__init__ doc h
       = (h, Raise (ValueError "Parse Error: Unable to parse V2 header with regex")).
Proof.
  intros Hv Huuid Hsi. rewrite init_gen2. eexists. eexists.
  split; [reflexivity |].
  pose proof (dt_now_tame localtime) as Hdt.
  pose proof (upper_tame uuid4 Huuid) as Hu. fold (uid uuid4) in Hu.
  split.
  - apply profile_payload_xml; [reflexivity |]. now apply signon_xml.
  - cbn [OFXTestClient.ofxheader]. apply gen2_document_not_parsed; [exact Hv |].
    change (String Py.LF ?x) with (String Py.LF EmptyString +:+ x).
    apply quiet_append; [reflexivity |]. unfold profile_body_xml.
    apply quiet_append; [reflexivity |].
    apply quiet_append.
    + apply quiet_append.
      * apply quiet_unlines. repeat constructor. quiet_chain.
      * apply quiet_append; [| reflexivity].
        destruct si as [s|]; [| reflexivity].
        destruct (Hsi s eq_refl) as [Horg Hfid].
        unfold fi_block. cbn [String.eqb Ascii.eqb Bool.eqb].
        apply quiet_unlines. repeat constructor; quiet_chain.
    + quiet_chain.
Qed.

(** ** The header parser on the documents the client renders *)

(** C10: parsing a version 1 document rendered by the client with the
    default version "102" stores exactly the fields OFXHEADER, DATA,
    VERSION and SECURITY.  The rendered header carries all nine fields,
    but the scan stops at its fifth line, ENCODING:USASCII, which is
    longer than thirteen characters, so ENCODING, CHARSET, COMPRESSION,
    OLDFILEUID and NEWFILEUID are never stored: parsed into the empty
    mapping the result holds the four fields and no other, and parsed into
    any mapping it adds these four bindings only. *)
Theorem C10_default_document_yields_four_fields :
  forall timeout wait use_cache output localtime uuid4 si,
  exists self doc f h',
    OFXTestClient.__init__ timeout wait use_cache output
      OFXTestClient.default_version = Ret self
    /\ OFXTestClient.get_profile_payload localtime uuid4 self si = Ret doc
    /\ map before_colon (Py.splitlines (OFXTestClient.ofxheader self)) = HDR_FIELDS_V1
    /\ nth_error (Py.splitlines doc) 4 = Some "ENCODING:USASCII"
    /\ ends_header "ENCODING:USASCII" = true
    /\ OFXFile.__init__ doc ∅ = (h', Ret f)
    /\ OFXFile.version f = Some "102"
    /\ h' = list_to_map [(HDR_OFXHEADER, "100"); (HDR_DATA, "OFXSGML");
                         (HDR_VERSION, "102"); (HDR_SECURITY, "NONE")]
    /\ dom h' = {[HDR_OFXHEADER; HDR_DATA; HDR_VERSION; HDR_SECURITY]}
    /\ Forall (fun k => OFXFile.headers f h' !! k = None)
         [HDR_ENCODING; HDR_CHARSET; HDR_COMPRESSION; HDR_OLDFILEUID;
          HDR_NEWFILEUID]
    /\ (forall h : gmap string string,
          fst (OFXFile.__init__ doc h)
          = <[HDR_SECURITY := "NONE"]> (<[HDR_VERSION := "102"]>
              (<[HDR_DATA := "OFXSGML"]> (<[HDR_OFXHEADER := "100"]> h)))).
Proof.
  intros timeout wait use_cache output localtime uuid4 si.
  set (self := {| OFXTestClient.timeout := timeout; OFXTestClient.wait := wait;
                  OFXTestClient.use_cache := use_cache;
                  OFXTestClient._output := output;
                  OFXTestClient.version := "102";
                  OFXTestClient.ofxheader := unlines (gen1_lines "102");
                  OFXTestClient.content_type := "text/sgml" |}).
  destruct (profile_payload_shape localtime uuid4 self si) as [body Hdoc];
    [left; reflexivity |].
  exists self, (unlines (gen1_lines "102") +:+ String Py.LF body).
  do 2 eexists. split; [apply init_gen1 |]. split; [exact Hdoc |].
  split; [reflexivity |].
  split; [now rewrite splitlines_unlines by now apply gen1_lines_plain |].
  split; [reflexivity |].
  split; [apply parse_gen1_document; [reflexivity | reflexivity | cbn; lia] |].
  split; [reflexivity |].
  split; [now vm_compute |].
  split.
  - unfold HDR_OFXHEADER, HDR_DATA, HDR_VERSION, HDR_SECURITY.
    rewrite !dom_insert_L, dom_empty_L. set_solver.
  - split; [repeat constructor |].
    intros h. now rewrite parse_gen1_document by (reflexivity || (cbn; lia)).
Qed.

(** C1, as stated, fails for a version 1 client: with the version string
    "1000000" the rendered line VERSION:1000000 has fifteen characters, the
    scan takes it for the end of the header, and the parser raises the
    missing-version error instead of recovering the version. *)
Lemma C1_long_version_is_not_recovered :
  exists self doc,
    Py.startswith "1000000" "1" = true
    /\ OFXTestClient.__init__ OFXTestClient.default_timeout 0 false false "1000000"
       = Ret self
    /\ OFXTestClient.get_profile_payload example_localtime example_uuid4 self None
       = Ret doc
    /\ OFXFile.__init__ doc ∅
       = (<["DATA" := "OFXSGML"]> (<["OFXHEADER" := "100"]> ∅),
          Raise (ValueError "Parse Error: No version")).
Proof.
  do 2 eexists. split; [reflexivity |].
  split; [apply init_gen1 |]. split; [vm_compute; reflexivity |].
  vm_compute. reflexivity.
Qed.

(** C1 (amended): for every version string that starts with "1", has at
    most five characters and holds neither a colon nor a line boundary,
    the client is constructed, its profile request is rendered, and
    parsing that document succeeds, whatever the shared header mapping
    held before, with VERSION equal to the version string. *)
Theorem C1_gen1_profile_roundtrip :
  forall timeout wait use_cache output localtime uuid4 si
         (v : string) (h : gmap string string),
    Py.startswith v "1" = true ->
    (String.length v <= 5)%nat ->
    none_of is_colon v = true ->
    plain v = true ->
    exists self doc f h',
      OFXTestClient.__init__ timeout wait use_cache output v = Ret self
      /\ OFXTestClient.get_profile_payload localtime uuid4 self si = Ret doc
      /\ OFXFile.__init__ doc h = (h', Ret f)
      /\ OFXFile.version f = Some v
      /\ OFXFile.headers f h' !! HDR_VERSION = Some v.
Proof.
  intros timeout wait use_cache output localtime uuid4 si v h Hone Hlen Hcol Hplain.
  apply prefix_split in Hone as [v' ->]. cbn [String.append] in *.
  set (v := String "1" v') in *.
  set (self := {| OFXTestClient.timeout := timeout; OFXTestClient.wait := wait;
                  OFXTestClient.use_cache := use_cache;
                  OFXTestClient._output := output;
                  OFXTestClient.version := v;
                  OFXTestClient.ofxheader := unlines (gen1_lines v);
                  OFXTestClient.content_type := "text/sgml" |}).
  destruct (profile_payload_shape localtime uuid4 self si) as [body Hdoc];
    [left; reflexivity |].
  exists self, (unlines (gen1_lines v) +:+ String Py.LF body).
  do 2 eexists. split; [apply init_gen1 |]. split; [exact Hdoc |].
  split; [now apply parse_gen1_document |].
  split; [reflexivity |].
  unfold OFXFile.headers, HDR_VERSION.
  rewrite lookup_insert_ne by discriminate. apply lookup_insert_eq.
Qed.

(** The round trip at the default version "102", parsed into the empty
    mapping. *)
Lemma C1_gen1_profile_roundtrip_witness :
  exists self doc f h',
    OFXTestClient.__init__ OFXTestClient.default_timeout 0 false false "102" = Ret self
    /\ OFXTestClient.get_profile_payload example_localtime example_uuid4 self None
       = Ret doc
    /\ OFXFile.__init__ doc ∅ = (h', Ret f)
    /\ OFXFile.version f = Some "102"
    /\ OFXFile.headers f h' !! HDR_VERSION = Some "102".
Proof.
  apply (C1_gen1_profile_roundtrip OFXTestClient.default_timeout 0 false false
           example_localtime example_uuid4 None "102" ∅).
  - reflexivity.
  - simpl. lia.
  - reflexivity.
  - reflexivity.
Defined.

(** Neither a colon nor a line boundary in the version string survives
    the round trip: the version line then has three parts, or the text
    after the boundary is a line without a colon. *)
Lemma gen1_roundtrip_needs_simple_version :
  (exists doc,
     OFXTestClient.get_profile_payload example_localtime example_uuid4
       {| OFXTestClient.timeout := OFXTestClient.default_timeout;
          OFXTestClient.wait := 0; OFXTestClient.use_cache := false;
          OFXTestClient._output := false; OFXTestClient.version := "1:2";
          OFXTestClient.ofxheader := unlines (gen1_lines "1:2");
          OFXTestClient.content_type := "text/sgml" |} None = Ret doc
     /\ snd (OFXFile.__init__ doc ∅)
        = Raise (ValueError "too many values to unpack (expected 2)"))
  /\ (exists doc,
        OFXTestClient.get_profile_payload example_localtime example_uuid4
          {| OFXTestClient.timeout := OFXTestClient.default_timeout;
             OFXTestClient.wait := 0; OFXTestClient.use_cache := false;
             OFXTestClient._output := false;
             OFXTestClient.version := unlines ["1"] +:+ "2";
             OFXTestClient.ofxheader := unlines (gen1_lines (unlines ["1"] +:+ "2"));
             OFXTestClient.content_type := "text/sgml" |} None = Ret doc
        /\ snd (OFXFile.__init__ doc ∅)
           = Raise (ValueError "not enough values to unpack (expected 2, got 1)")).
Proof.
  split; eexists; (split; [vm_compute; reflexivity |]); vm_compute; reflexivity.
Qed.

(** For a version 2 client the round trip is lost altogether: the
    document rendered for the version string "203" is rejected. *)
Lemma gen2_profile_is_rejected :
  exists self doc,
    OFXTestClient.__init__ OFXTestClient.default_timeout 0 false false "203" = Ret self
    /\ OFXTestClient.get_profile_payload example_localtime example_uuid4 self None
       = Ret doc
    /\ OFXFile.__init__ doc ∅
       = (∅, Raise (ValueError "Parse Error: Unable to parse V2 header with regex")).
Proof.
  apply (gen2_profile_never_parsed OFXTestClient.default_timeout 0 false false
           example_localtime example_uuid4 "03" None ∅);
    [reflexivity | reflexivity | discriminate].
Qed.

(** C4: the header mapping of a constructed [OFXFile] is not independent
    of later constructions.  After a first document with VERSION:102 is
    parsed into [f1], parsing a second document with VERSION:103 makes
    [f1.headers] read 103, although [f1.version] still reads 102: both
    instances store into the one class-level dictionary. *)
Theorem C4_second_document_overwrites_first_headers :
  exists c1 c2 doc1 doc2 f1 f2 h1 h2,
    OFXTestClient.__init__ OFXTestClient.default_timeout 0 false false "102" = Ret c1
    /\ OFXTestClient.__init__ OFXTestClient.default_timeout 0 false false "103" = Ret c2
    /\ OFXTestClient.get_ofx_empty_payload c1 None = Ret doc1
    /\ OFXTestClient.get_ofx_empty_payload c2 None = Ret doc2
    /\ OFXFile.__init__ doc1 ∅ = (h1, Ret f1)
    /\ OFXFile.headers f1 h1 !! HDR_VERSION = Some "102"
    /\ OFXFile.__init__ doc2 h1 = (h2, Ret f2)
    /\ OFXFile.headers f1 h2 !! HDR_VERSION = Some "103"
    /\ OFXFile.version f1 = Some "102"
    /\ OFXFile.headers f1 h2 = OFXFile.headers f2 h2.
Proof.
  exists {| OFXTestClient.timeout := OFXTestClient.default_timeout;
            OFXTestClient.wait := 0; OFXTestClient.use_cache := false;
            OFXTestClient._output := false; OFXTestClient.version := "102";
            OFXTestClient.ofxheader := unlines (gen1_lines "102");
            OFXTestClient.content_type := "text/sgml" |},
         {| OFXTestClient.timeout := OFXTestClient.default_timeout;
            OFXTestClient.wait := 0; OFXTestClient.use_cache := false;
            OFXTestClient._output := false; OFXTestClient.version := "103";
            OFXTestClient.ofxheader := unlines (gen1_lines "103");
            OFXTestClient.content_type := "text/sgml" |}.
  unfold OFXTestClient.get_ofx_empty_payload. cbn [OFXTestClient.ofxheader].
  rewrite !format_join. do 6 eexists.
  split; [apply init_gen1 |]. split; [apply init_gen1 |].
  split; [reflexivity |]. split; [reflexivity |].
  split; [apply parse_gen1_document; [reflexivity | reflexivity | cbn; lia] |].
  split; [unfold OFXFile.headers, HDR_VERSION;
          rewrite lookup_insert_ne by discriminate; apply lookup_insert_eq |].
  split; [apply parse_gen1_document; [reflexivity | reflexivity | cbn; lia] |].
  split; [unfold OFXFile.headers, HDR_VERSION;
          rewrite lookup_insert_ne by discriminate; apply lookup_insert_eq |].
  split; reflexivity.
Qed.

(** C6: for the version string "203" the rendered header is not the
    two-line prolog.  It has three lines: the processing instruction is
    broken after OLDFILEUID, and NEWFILEUID stands on a line of its own.
    The parser's pattern, which wants a single space there, finds no match
    in the rendered header, while it matches the instruction written on
    one line. *)
Theorem C6_gen2_header_has_three_lines :
  forall timeout wait use_cache output,
  exists self,
    OFXTestClient.__init__ timeout wait use_cache output "203" = Ret self
    /\ Py.splitlines (OFXTestClient.ofxheader self)
       = ["<?xml version=" +:+ q "1.0" +:+ " encoding=" +:+ q "UTF-8"
            +:+ " standalone=" +:+ q "no" +:+ "?>";
          "<?OFX OFXHEADER=" +:+ q "200" +:+ " VERSION=" +:+ q "203"
            +:+ " SECURITY=" +:+ q "NONE" +:+ " OLDFILEUID=" +:+ q "NONE";
          "NEWFILEUID=" +:+ q "NONE" +:+ "?>"]
    /\ Re.search OFXFile.rpat (OFXTestClient.ofxheader self) = None
    /\ Re.search OFXFile.rpat
         ("<?OFX OFXHEADER=" +:+ q "200" +:+ " VERSION=" +:+ q "203"
            +:+ " SECURITY=" +:+ q "NONE" +:+ " OLDFILEUID=" +:+ q "NONE"
            +:+ " NEWFILEUID=" +:+ q "NONE" +:+ "?>")
       = Some [("OFXHEADER", "200"); ("VERSION", "203"); ("SECURITY", "NONE");
               ("OLDFILEUID", "NONE"); ("NEWFILEUID", "NONE")].
Proof.
  intros timeout wait use_cache output. eexists.
  split; [apply init_gen2 |]. cbn [OFXTestClient.ofxheader].
  split; [vm_compute; reflexivity |].
  split; vm_compute; reflexivity.
Qed.

(** C9: for the empty version string the constructor does not raise the
    unsupported-version error: indexing the first character of the empty
    string raises [IndexError] before the version is looked at. *)
Theorem C9_empty_version_raises_index_error :
  forall timeout wait use_cache output,
    OFXTestClient.__init__ timeout wait use_cache output EmptyString
    = Raise (IndexError "string index out of range").
Proof. reflexivity. Qed.

(** Every other version string whose first character is neither 1 nor 2
    is rejected with the unsupported-version error. *)
Lemma init_unsupported_version timeout wait use_cache output (c : ascii) (v : string) :
  c <> "1"%char -> c <> "2"%char ->
  OFXTestClient.__init__ timeout wait use_cache output (String c v)
  = Raise (ValueError ("Unknown OFX version number " +:+ String c v)).
Proof.
  intros H1 H2. unfold OFXTestClient.__init__. cbn [Py.getitem0 res_bind String.eqb].
  apply Ascii.eqb_neq in H1, H2. rewrite H1, H2.
  unfold Py.format. eval_pieces. cbn. now rewrite append_nil_r.
Qed.

(** ** Parsing the same text again *)

Lemma lookup_store_all (bs : list (string * string)) (h : gmap string string) k :
  store_all bs h !! k
  = match last_binding k bs with Some v => Some v | None => h !! k end.
Proof.
  revert h. induction bs as [|[k' v] bs IH]; intros h; [reflexivity |].
  cbn [store_all fold_left last_binding fst snd]. fold (store_all bs (<[k' := v]> h)).
  rewrite IH. destruct (last_binding k bs); [reflexivity |].
  destruct (String.eqb_spec k' k) as [-> | Hne].
  - apply lookup_insert_eq.
  - now apply lookup_insert_ne.
Qed.

Lemma store_all_twice (bs : list (string * string)) (h : gmap string string) :
  store_all bs (store_all bs h) = store_all bs h.
Proof.
  apply map_eq. intros k. rewrite !lookup_store_all.
  now destruct (last_binding k bs).
Qed.

Lemma scan_lines_script (lines : list string) :
  exists bs r, forall h, OFXFile.scan_lines lines h = (store_all bs h, r).
Proof.
  induction lines as [|l lines (bs & r & IH)].
  - exists [], (Ret tt). reflexivity.
  - cbn [OFXFile.scan_lines].
    destruct (String.eqb l EmptyString || Py.startswith l "<OFX>" || (13 <? Py.len l)).
    + exists [], (Ret tt). reflexivity.
    + destruct (Py.split l ":") as [|k [|v [|x rest]]].
      * exists [], (Raise (ValueError "not enough values to unpack (expected 2, got 1)")).
        reflexivity.
      * exists [], (Raise (ValueError "not enough values to unpack (expected 2, got 1)")).
        reflexivity.
      * exists ((k, v) :: bs), r. intros h. now rewrite IH.
      * exists [], (Raise (ValueError "too many values to unpack (expected 2)")).
        reflexivity.
Qed.

Lemma store_groups_script (fields : list string) (m : Re.groups) :
  exists bs r, forall h, OFXFile.store_groups fields m h = (store_all bs h, r).
Proof.
  induction fields as [|f fields (bs & r & IH)].
  - exists [], (Ret tt). reflexivity.
  - cbn [OFXFile.store_groups]. destruct (Re.group m f) as [g|e].
    + exists ((f, g) :: bs), r. intros h. now rewrite IH.
    + exists [], (Raise e). reflexivity.
Qed.

(** Parsing a text a second time, into the mapping the first parse left,
    leaves the mapping as it is and gives the same result: the two header
    mappings agree field for field. *)
Lemma parse_twice_same_headers (s : string) (h h1 : gmap string string) r :
  OFXFile.__init__ s h = (h1, r) -> OFXFile.__init__ s h1 = (h1, r).
Proof.
  unfold OFXFile.__init__, OFXFile._parse_header.
  destruct (Py.startswith (OFXFile._convert_newlines s) "OFXHEADER").
  - destruct (scan_lines_script (Py.splitlines (OFXFile._convert_newlines s)))
      as (bs & r0 & Hscan).
    rewrite !Hscan. destruct r0 as [[]|e].
    + destruct (OFXFile.read_version (store_all bs h)) eqn:Hv;
        intros [= <- <-]; now rewrite store_all_twice, Hv.
    + intros [= <- <-]. now rewrite store_all_twice.
  - destruct (negb _).
    + destruct (Re.search OFXFile.rpat (OFXFile._convert_newlines s)) as [m|].
      * destruct (store_groups_script HDR_FIELDS_V2 m) as (bs & r0 & Hst).
        rewrite !Hst. destruct r0 as [[]|e].
        -- destruct (OFXFile.read_version (store_all bs h)) eqn:Hv;
             intros [= <- <-]; now rewrite store_all_twice, Hv.
        -- intros [= <- <-]. now rewrite store_all_twice.
      * now intros [= <- <-].
    + now intros [= <- <-].
Qed.

(** ** The scan of the version 1 header region *)

Lemma startswith_convert_newlines (s : string) :
  Py.startswith s "OFXHEADER" = true ->
  Py.startswith (OFXFile._convert_newlines s) "OFXHEADER" = true.
Proof.
  unfold Py.startswith. intros H. apply prefix_split in H as [rest ->].
  rewrite convert_newlines_append by reflexivity. apply prefix_refl_append.
Qed.

(** C5, as stated, fails on a header line with a second colon.  In the
    text below the line A:b:c lies in the header region; splitting it at
    its first colon would store the field A with the value b:c, but the
    parser splits at every colon, cannot unpack three parts into a field
    and a value, and raises an error with only OFXHEADER stored. *)
Lemma C5_second_colon_raises :
  Py.startswith example_two_colons "OFXHEADER" = true
  /\ region (Py.splitlines (OFXFile._convert_newlines example_two_colons))
     = ["OFXHEADER:100"; "A:b:c"]
  /\ (before_colon "A:b:c", after_colon "A:b:c") = ("A", "b:c")
  /\ OFXFile.__init__ example_two_colons ∅
     = (<["OFXHEADER" := "100"]> ∅,
        Raise (ValueError "too many values to unpack (expected 2)"))
  /\ fst (OFXFile.__init__ example_two_colons ∅)
     <> store_lines
          (region (Py.splitlines (OFXFile._convert_newlines example_two_colons))) ∅.
Proof.
  split; [reflexivity |]. split; [reflexivity |]. split; [reflexivity |].
  split; [reflexivity |].
  intros Heq. apply (f_equal (fun m => m !! "A")) in Heq. vm_compute in Heq.
  discriminate.
Qed.

(** C5 (amended): for every input that starts with OFXHEADER the parser
    scans the header region, the lines before the first one that is
    empty, starts with <OFX> or is longer than thirteen characters.  If
    every line of the region has exactly one colon, each is stored with
    the text before the colon as field and the text after it as value, and
    the version is then read from the mapping.  If some line of the region
    has no colon or more than one, parsing fails with a [ValueError] at the
    first such line, the lines before it having been stored. *)
Theorem C5_header_region_scan :
  forall (s : string) (h : gmap string string),
    Py.startswith s "OFXHEADER" = true ->
    let lines := region (Py.splitlines (OFXFile._convert_newlines s)) in
    (Forall (fun l => colons l = 1%nat) lines ->
     OFXFile.__init__ s h
     = (store_lines lines h,
        let? v := OFXFile.read_version (store_lines lines h) in
        Ret {| OFXFile._file_str := OFXFile._convert_newlines s;
               OFXFile.version := Some v |}))
    /\ (forall pre l post,
          lines = (pre ++ l :: post)%list ->
          Forall (fun l => colons l = 1%nat) pre ->
          colons l <> 1%nat ->
          exists msg,
            OFXFile.__init__ s h = (store_lines pre h, Raise (ValueError msg))).
Proof.
  intros s h Hstart lines. apply startswith_convert_newlines in Hstart.
  unfold OFXFile.__init__, OFXFile._parse_header. rewrite Hstart. split.
  - intros Hall. rewrite scan_lines_region_ok by exact Hall.
    fold lines. now destruct (OFXFile.read_version (store_lines lines h)).
  - intros pre l post Hreg Hpre Hl.
    destruct (scan_lines_region_err _ pre post l h Hreg Hpre Hl) as [msg ->].
    now exists msg.
Qed.

(** The scan on a text of three well-formed lines, and on a text whose
    second line has no colon. *)
Lemma C5_header_region_scan_witness :
  OFXFile.__init__ (unlines ["OFXHEADER:100"; "DATA:OFXSGML"; "VERSION:102"]) ∅
  = (<["VERSION" := "102"]> (<["DATA" := "OFXSGML"]> (<["OFXHEADER" := "100"]> ∅)),
     Ret {| OFXFile._file_str := unlines ["OFXHEADER:100"; "DATA:OFXSGML"; "VERSION:102"];
            OFXFile.version := Some "102" |})
  /\ exists msg,
       OFXFile.__init__ (unlines ["OFXHEADER:100"; "VERSION"; "DATA:OFXSGML"]) ∅
       = (<["OFXHEADER" := "100"]> ∅, Raise (ValueError msg)).
Proof.
  split.
  - destruct (C5_header_region_scan
                (unlines ["OFXHEADER:100"; "DATA:OFXSGML"; "VERSION:102"]) ∅ eq_refl)
      as [Hok _].
    rewrite Hok; [reflexivity | repeat constructor].
  - destruct (C5_header_region_scan
                (unlines ["OFXHEADER:100"; "VERSION"; "DATA:OFXSGML"]) ∅ eq_refl)
      as [_ Herr].
    apply (Herr ["OFXHEADER:100"] "VERSION" ["DATA:OFXSGML"]).
    + reflexivity.
    + repeat constructor.
    + discriminate.
Defined.

(** ** Sending requests *)

(** C2: [send_req] does not dispatch the account-info request.  The name
    is among [REQ_NAMES] and [REQ_METHODS] binds it to POST, yet the call
    raises the unknown-request error and leaves the world untouched; the
    same holds for every listed name other than the profile request. *)
Theorem C2_listed_requests_are_unknown :
  forall network localtime uuid4 (self : OFXTestClient.t) si (w : world),
    In REQ_NAME_OFX_ACCTINFO REQ_NAMES
    /\ REQ_METHODS !! REQ_NAME_OFX_ACCTINFO = Some "POST"
    /\ OFXTestClient.send_req network localtime uuid4 self REQ_NAME_OFX_ACCTINFO si w
       = (w, Raise (ValueError "Unknown request name: OFX ACCTINFO"))
    /\ Forall (fun name =>
                 In name REQ_NAMES
                 /\ exists msg,
                      OFXTestClient.send_req network localtime uuid4 self name si w
                      = (w, Raise (ValueError msg)))
         [REQ_NAME_GET_ROOT; REQ_NAME_GET_OFX; REQ_NAME_POST_OFX;
          REQ_NAME_OFX_EMPTY; REQ_NAME_OFX_ACCTINFO].
Proof.
  intros network localtime uuid4 self si w.
  split; [simpl; tauto |]. split; [reflexivity |]. split; [reflexivity |].
  repeat constructor; simpl; try tauto; eexists; reflexivity.
Qed.

(** The one request [send_req] knows is sent with the method bound to
    its name. *)
Lemma send_req_profile_posts network localtime uuid4 (self : OFXTestClient.t)
    (s : OFXServerInstance.t) (w : world) (payload : string) :
  OFXTestClient.get_profile_payload localtime uuid4 self (Some s) = Ret payload ->
  OFXTestClient.send_req network localtime uuid4 self REQ_NAME_OFX_PROFILE (Some s) w
  = match OFXTestClient.call_url_cached network self (OFXServerInstance.ofxurl s)
            true payload "POST" w with
    | (w', Ret (r, _)) => (w', Ret r)
    | (w', Raise e) => (w', Raise e)
    end.
Proof.
  intros Hp. unfold OFXTestClient.send_req.
  replace (String.eqb REQ_NAME_OFX_PROFILE REQ_NAME_OFX_PROFILE) with true by reflexivity.
  rewrite Hp. replace (dict_getitem REQ_METHODS REQ_NAME_OFX_PROFILE) with (Ret "POST")
    by reflexivity.
  cbn [res_bind].
  destruct (OFXTestClient.call_url_cached network self (OFXServerInstance.ofxurl s)
              true payload "POST" w) as [w' [[r c]|e]]; reflexivity.
Qed.

(** On a read timeout of an uncached URL the call raises: [wait] is looked
    up as a global name, and the module binds none. *)
Lemma read_timeout_raises network (self : OFXTestClient.t) url tlsverify body
    method (w : world) ex :
  method = "GET" \/ method = "POST" ->
  cache w !! url = None ->
  (forall rq, network (sent w) rq = ReadTimeout ex) ->
  exists w',
    OFXTestClient.call_url_cached network self url tlsverify body method w
    = (w', Raise (NameError "wait"))
    /\ slept w' = slept w /\ cache w' = cache w.
Proof.
  intros Hm Hmiss Hnet. unfold OFXTestClient.call_url_cached.
  replace (negb _) with false by (destruct Hm as [-> | ->]; reflexivity).
  rewrite Hmiss.
  destruct (OFXTestClient._output self).
  - unfold Py.format. eval_pieces. cbn [Py.render res_bind print sent].
    rewrite Hnet. cbn. eauto.
  - rewrite Hnet. cbn. eauto.
Qed.

(** C3: when the HTTP call raises a read timeout, [call_url_cached] does
    not return (None, False): for every client, whatever its configured
    wait, the call ends in [NameError] for the name [wait], and nothing
    has slept. *)
Theorem C3_read_timeout_raises_name_error :
  forall (self : OFXTestClient.t) url tlsverify body ex,
    load_global "wait" = Raise (NameError "wait")
    /\ (exists w',
          OFXTestClient.call_url_cached (fun _ _ => ReadTimeout ex) self url
            tlsverify body "GET" new_world
          = (w', Raise (NameError "wait")) /\ slept w' = [])
    /\ (exists w',
          OFXTestClient.call_url_cached (fun _ _ => ReadTimeout ex) self url
            tlsverify body "POST" new_world
          = (w', Raise (NameError "wait")) /\ slept w' = []).
Proof.
  intros self url tlsverify body ex. split; [reflexivity |].
  split.
  - destruct (read_timeout_raises (fun _ _ => ReadTimeout ex) self url tlsverify
                body "GET" new_world ex) as (w' & Hcall & Hslept & _);
      [now left | apply lookup_empty | reflexivity |].
    exists w'. split; [exact Hcall | exact Hslept].
  - destruct (read_timeout_raises (fun _ _ => ReadTimeout ex) self url tlsverify
                body "POST" new_world ex) as (w' & Hcall & Hslept & _);
      [now right | apply lookup_empty | reflexivity |].
    exists w'. split; [exact Hcall | exact Hslept].
Qed.

(** ** The signon fragment *)

(** The time stamp is made of digits and of the fixed zone annotation. *)
Lemma dt_now_no_lt (localtime : struct_time) :
  none_of (Ascii.eqb "<") (dt_now localtime) = true.
Proof.
  generalize (dt_now_tame localtime). unfold tame. apply none_of_weaken.
  intros c Hc. apply Ascii.eqb_eq in Hc. subst c. reflexivity.
Qed.

Lemma init_content_type timeout wait use_cache output version (self : OFXTestClient.t) :
  OFXTestClient.__init__ timeout wait use_cache output version = Ret self ->
  OFXTestClient.content_type self = "text/sgml"
  \/ OFXTestClient.content_type self = "text/xml".
Proof.
  destruct version as [|c v]; [discriminate |].
  destruct (ascii_dec c "1") as [-> | H1].
  - rewrite init_gen1. intros [= <-]. now left.
  - destruct (ascii_dec c "2") as [-> | H2].
    + rewrite init_gen2. intros [= <-]. now right.
    + rewrite init_unsupported_version by assumption. discriminate.
Qed.

Lemma fi_block_occurs (ct : string) (s : OFXServerInstance.t) (pre post : string) :
  occurs "<FI>" (pre +:+ fi_block ct s +:+ post) = true.
Proof.
  apply occurs_append_r. unfold fi_block.
  destruct (String.eqb ct "text/sgml"); reflexivity.
Qed.

(** C7, as stated, fails for a descriptor whose FID and ORG are empty:
    the fragment still holds an <FI> block, with empty ORG and FID lines. *)
Lemma C7_empty_descriptor_renders_fi_block :
  exists self frag,
    OFXServerInstance.fid example_server = EmptyString
    /\ OFXServerInstance.org example_server = EmptyString
    /\ OFXTestClient.__init__ OFXTestClient.default_timeout 0 false false "102"
       = Ret self
    /\ OFXTestClient._get_signonmsg_anonymous_payload example_localtime self
         (Some example_server) = Ret frag
    /\ Py.find frag "<FI>" = 174
    /\ Py.find frag (unlines ["<FI>"; "<ORG>"; "<FID>"; "</FI>"; "<APPID>QWIN"]) = 174.
Proof.
  do 2 eexists. split; [reflexivity |]. split; [reflexivity |].
  split; [apply init_gen1 |]. split; [vm_compute; reflexivity |].
  split; vm_compute; reflexivity.
Qed.

(** C7 (amended): for a client of either tag style the signon fragment
    is rendered, and it holds an <FI> block exactly when a server
    descriptor is supplied, whatever its FID and ORG, empty ones included.
    The block names ORG and FID and stands directly before APPID; without
    a descriptor the text <FI> occurs nowhere in the fragment. *)
Theorem C7_fi_block_iff_descriptor_supplied :
  forall timeout wait use_cache output version localtime
         (self : OFXTestClient.t) (si : option OFXServerInstance.t),
    OFXTestClient.__init__ timeout wait use_cache output version = Ret self ->
    exists frag,
      OFXTestClient._get_signonmsg_anonymous_payload localtime self si = Ret frag
      /\ (Py.find frag "<FI>" <> -1 <-> si <> None)
      /\ (forall s, si = Some s ->
            exists pre post,
              frag = pre +:+ fi_block (OFXTestClient.content_type self) s
                         +:+ "<APPID>QWIN" +:+ post).
Proof.
  intros timeout wait use_cache output version localtime self si Hinit.
  pose proof (dt_now_no_lt localtime) as Hdt.
  destruct (init_content_type _ _ _ _ _ _ Hinit) as [Hct | Hct].
  - rewrite (signon_sgml localtime self si Hct), Hct. eexists. split; [reflexivity |].
    split.
    + rewrite find_occurs. destruct si as [s|].
      * rewrite fi_block_occurs. split; [discriminate | congruence].
      * split; [| congruence]. intros Hocc. exfalso. apply Hocc.
        revert Hdt. generalize (dt_now localtime) as dt. intros dt Hdt.
        repeat (progress (cbn [unlines String.append]; rewrite ?append_assoc)).
        cbn [occurs Py.prefix Ascii.eqb Bool.eqb andb orb].
        rewrite (occurs_skip _ _ dt) by exact Hdt. reflexivity.
    + intros s ->. eexists. eexists. reflexivity.
  - rewrite (signon_xml localtime self si Hct), Hct. eexists. split; [reflexivity |].
    split.
    + rewrite find_occurs. destruct si as [s|].
      * rewrite fi_block_occurs. split; [discriminate | congruence].
      * split; [| congruence]. intros Hocc. exfalso. apply Hocc.
        revert Hdt. generalize (dt_now localtime) as dt. intros dt Hdt.
        repeat (progress (cbn [unlines String.append]; rewrite ?append_assoc)).
        cbn [occurs Py.prefix Ascii.eqb Bool.eqb andb orb].
        rewrite (occurs_skip _ _ dt) by exact Hdt. reflexivity.
    + intros s ->. eexists. eexists. reflexivity.
Qed.

(** The fragment of a version 2 client for a descriptor without FID and
    ORG. *)
Lemma C7_fi_block_iff_descriptor_supplied_witness :
  exists frag,
    OFXTestClient._get_signonmsg_anonymous_payload example_localtime
      {| OFXTestClient.timeout := OFXTestClient.default_timeout;
         OFXTestClient.wait := 0; OFXTestClient.use_cache := false;
         OFXTestClient._output := false; OFXTestClient.version := "203";
         OFXTestClient.ofxheader := unlines (gen2_lines "203");
         OFXTestClient.content_type := "text/xml" |}
      (Some example_server) = Ret frag
    /\ (Py.find frag "<FI>" <> -1 <-> Some example_server <> None)
    /\ (forall s, Some example_server = Some s ->
          exists pre post,
            frag = pre +:+ fi_block "text/xml" s +:+ "<APPID>QWIN" +:+ post).
Proof.
  exact (C7_fi_block_iff_descriptor_supplied OFXTestClient.default_timeout 0 false
           false "203" example_localtime _ (Some example_server)
           (init_gen2 _ _ _ _ "03")).
Defined.

(** ** The cache of [call_url_cached] *)

Lemma print_cache line (w : world) : cache (print line w) = cache w.
Proof. now destruct line. Qed.

Lemma print_sent line (w : world) : sent (print line w) = sent w.
Proof. now destruct line. Qed.

(** A cached URL is answered from the cache: nothing is sent, printed or
    stored. *)
Lemma cached_url_hits network (self : OFXTestClient.t) url tlsverify body method
    (w : world) (r : option response) :
  method = "GET" \/ method = "POST" ->
  cache w !! url = Some r ->
  OFXTestClient.call_url_cached network self url tlsverify body method w
  = (w, Ret (r, true)).
Proof.
  intros Hm Hhit. unfold OFXTestClient.call_url_cached.
  replace (negb _) with false by (destruct Hm as [-> | ->]; reflexivity).
  now rewrite Hhit.
Qed.

(** No call ever changes or removes an entry of the cache. *)
Lemma call_keeps_entry network (c : call) (w : world) url (r : option response) :
  cache w !! url = Some r ->
  cache (fst (do_call network c w)) !! url = Some r.
Proof.
  intros Hhit. unfold do_call, OFXTestClient.call_url_cached.
  destruct (negb _); [exact Hhit |].
  destruct (cache w !! c_url c) as [r'|] eqn:Hc; [exact Hhit |].
  assert (Hne : c_url c <> url) by congruence.
  set (w1 := if OFXTestClient._output (c_self c) then _ else w).
  assert (Hw1 : cache w1 = cache w)
    by (unfold w1; destruct (OFXTestClient._output (c_self c));
        [apply print_cache | reflexivity]).
  destruct (network (sent w1) _) as [r'' | ex | ex | e].
  - destruct (OFXTestClient.use_cache (c_self c)); cbn [fst set_cache send cache].
    + rewrite lookup_insert_ne by exact Hne. now rewrite Hw1.
    + now rewrite Hw1.
  - cbn [fst]. destruct (OFXTestClient._output (c_self c));
      cbn [set_cache cache]; rewrite ?print_cache; cbn [send cache];
      rewrite lookup_insert_ne by exact Hne; now rewrite Hw1.
  - destruct (let? v := load_global "wait" in gt_zero v) as [[|]|e];
      destruct (OFXTestClient._output (c_self c));
      cbn [fst sleep cache]; rewrite ?print_cache; cbn [send cache]; now rewrite Hw1.
  - cbn [fst send cache]. now rewrite Hw1.
Qed.

Lemma run_keeps_entry network (cs : list call) (w : world) url (r : option response) :
  cache w !! url = Some r -> cache (run network cs w) !! url = Some r.
Proof.
  revert w. induction cs as [|c cs IH]; intros w Hhit; [exact Hhit |].
  cbn [run fold_left]. apply IH. now apply call_keeps_entry.
Qed.

(** A call that returns a result leaves it in the cache if it came from
    the cache, if the client uses the cache, or if it is the "no result"
    of a connection failure. *)
Lemma returned_result_is_cached network (self : OFXTestClient.t) url tlsverify body
    method (w w1 : world) (r : option response) (was_cached : bool) :
  OFXTestClient.call_url_cached network self url tlsverify body method w
  = (w1, Ret (r, was_cached)) ->
  was_cached = true \/ OFXTestClient.use_cache self = true \/ r = None ->
  cache w1 !! url = Some r.
Proof.
  unfold OFXTestClient.call_url_cached.
  destruct (negb _); [discriminate |].
  destruct (cache w !! url) as [r'|] eqn:Hc.
  - intros [= <- <- <-] _. exact Hc.
  - set (w0 := if OFXTestClient._output self then _ else w).
    destruct (network (sent w0) _) as [r'' | ex | ex | e].
    + destruct (OFXTestClient.use_cache self) eqn:Hu.
      * intros [= <- <- <-] _. cbn [set_cache cache]. apply lookup_insert_eq.
      * intros [= <- <- <-] [H | [H | H]]; discriminate.
    + intros [= <- <- <-] _. cbn [set_cache cache]. apply lookup_insert_eq.
    + destruct (let? v := load_global "wait" in gt_zero v) as [[|]|e] eqn:Hw;
        try discriminate; vm_compute in Hw; discriminate.
    + discriminate.
Qed.

(** C8, as stated, fails for a client that does not use the cache: the
    first call for a URL produces a successful response, and the second
    call for the same URL issues a second network request and reports
    that nothing was cached. *)
Lemma C8_uncached_client_calls_again :
  exists self w1 w2,
    OFXTestClient.__init__ OFXTestClient.default_timeout 0 false false "102" = Ret self
    /\ OFXTestClient.call_url_cached (fun _ _ => Responded example_response) self
         "https://ofx.example.com/ofx" true EmptyString "GET" new_world
       = (w1, Ret (Some example_response, false))
    /\ length (sent w1) = 1%nat
    /\ OFXTestClient.call_url_cached (fun _ _ => Responded example_response) self
         "https://ofx.example.com/ofx" true EmptyString "GET" w1
       = (w2, Ret (Some example_response, false))
    /\ length (sent w2) = 2%nat.
Proof.
  do 3 eexists. split; [apply init_gen1 |].
  split; [reflexivity |]. split; [reflexivity |].
  split; reflexivity.
Qed.

(** C8 (amended): once a call of [call_url_cached] for a URL has returned
    a result from the cache or through a client that uses the cache, or has
    returned the "no result" of a connection failure, every later
    call for that URL with the method GET or POST, through any client and
    after any other calls, returns that same result with wasCached true
    and issues no network request. *)
Theorem C8_cached_result_is_never_requested_again :
  forall network (self : OFXTestClient.t) url tlsverify body method
         (w w1 : world) (r : option response) (was_cached : bool)
         (between : list call) (self' : OFXTestClient.t) tlsverify' body' method',
    OFXTestClient.call_url_cached network self url tlsverify body method w
    = (w1, Ret (r, was_cached)) ->
    was_cached = true \/ OFXTestClient.use_cache self = true \/ r = None ->
    method' = "GET" \/ method' = "POST" ->
    let w2 := run network between w1 in
    OFXTestClient.call_url_cached network self' url tlsverify' body' method' w2
    = (w2, Ret (r, true)).
Proof.
  intros network self url tlsverify body method w w1 r was_cached between
         self' tlsverify' body' method' Hcall Hwhy Hm w2.
  apply cached_url_hits; [exact Hm |].
  apply run_keeps_entry.
  eapply returned_result_is_cached; [exact Hcall | exact Hwhy].
Qed.

(** A caching client fetches a URL, another client fetches a second URL,
    and a third call for the first URL is answered from the cache: two
    requests were sent in all. *)
Lemma C8_cached_result_is_never_requested_again_witness :
  let w1 := fst (OFXTestClient.call_url_cached
                   (fun _ _ => Responded example_response) example_caching_client
                   "https://ofx.example.com/ofx" true EmptyString "GET" new_world) in
  let w2 := run (fun _ _ => Responded example_response)
              [{| c_self := example_plain_client; c_url := "https://ofx.example.com/";
                  c_tlsverify := true; c_body := EmptyString; c_method := "GET" |}]
              w1 in
  OFXTestClient.call_url_cached (fun _ _ => Responded example_response)
    example_plain_client "https://ofx.example.com/ofx" true "<OFX>" "POST" w2
  = (w2, Ret (Some example_response, true))
  /\ length (sent w2) = 2%nat.
Proof.
  split; [| reflexivity].
  apply (C8_cached_result_is_never_requested_again
           (fun _ _ => Responded example_response) example_caching_client
           "https://ofx.example.com/ofx" true EmptyString "GET" new_world _
           (Some example_response) false).
  - reflexivity.
  - right. left. reflexivity.
  - right. reflexivity.
Defined.

(** * Further properties of the module *)

(** ** Newline conversion *)

Lemma convert_to_crlf (s : string) :
  none_of (Ascii.eqb Py.CR) s = true -> OFXFile._convert_newlines (to_crlf s) = s.
Proof.
  unfold OFXFile._convert_newlines, Py.replace.
  induction s as [|c s IH]; intros H; [reflexivity |].
  cbn [none_of] in H. apply andb_true_iff in H as [Hc Hs].
  apply negb_true_iff in Hc. cbn [to_crlf].
  destruct (Ascii.eqb_spec c Py.LF) as [-> | Hlf].
  - cbn. now rewrite IH.
  - cbn [Py.replace_aux Py.prefix]. rewrite Hc. cbn [andb]. now rewrite IH.
Qed.

(** X1: a text with network newlines parses like the same text with line
    feeds only: for every text without carriage returns, constructing an
    [OFXFile] from its CR LF form gives the same header mapping and the
    same result, stored text included. *)
Theorem X1_crlf_text_parses_like_lf_text :
  forall (s : string) (h : gmap string string),
    none_of (Ascii.eqb Py.CR) s = true ->
    OFXFile.__init__ (to_crlf s) h = OFXFile.__init__ s h.
Proof.
  intros s h H. unfold OFXFile.__init__.
  now rewrite convert_to_crlf, convert_newlines_id.
Qed.

(** The version 1 header block of version "102" with either newline. *)
Lemma X1_crlf_text_parses_like_lf_text_witness :
  OFXFile.__init__ (to_crlf (unlines (gen1_lines "102"))) ∅
  = OFXFile.__init__ (unlines (gen1_lines "102")) ∅.
Proof.
  apply (X1_crlf_text_parses_like_lf_text (unlines (gen1_lines "102")) ∅).
  reflexivity.
Defined.

(** ** Parsing the same text again *)

(** X2: parsing a text a second time, into the mapping the first parse
    left behind, changes neither the mapping nor the result: the header
    mappings of the two parses agree field for field, and a text that was
    rejected is rejected again with the same error. *)
Theorem X2_parsing_again_changes_nothing :
  forall (s : string) (h h1 : gmap string string) (r : res OFXFile.t),
    OFXFile.__init__ s h = (h1, r) -> OFXFile.__init__ s h1 = (h1, r).
Proof. exact parse_twice_same_headers. Qed.

Lemma X2_parsing_again_changes_nothing_witness :
  OFXFile.__init__ (unlines ["OFXHEADER:100"; "VERSION:102"])
    (<["VERSION" := "102"]> (<["OFXHEADER" := "100"]> ∅))
  = (<["VERSION" := "102"]> (<["OFXHEADER" := "100"]> ∅),
     Ret {| OFXFile._file_str := unlines ["OFXHEADER:100"; "VERSION:102"];
            OFXFile.version := Some "102" |}).
Proof.
  apply (X2_parsing_again_changes_nothing
           (unlines ["OFXHEADER:100"; "VERSION:102"]) ∅).
  reflexivity.
Defined.

(** ** The response classifier and the parser *)

(** One step of the newline conversion. *)
Lemma convert_newlines_cons (c : ascii) (s : string) :
  OFXFile._convert_newlines (String c s)
  = match s with
    | String b s' =>
        if Ascii.eqb c Py.CR && Ascii.eqb b Py.LF
        then String Py.LF (OFXFile._convert_newlines s')
        else String c (OFXFile._convert_newlines s)
    | EmptyString => String c EmptyString
    end.
Proof.
  unfold OFXFile._convert_newlines, Py.replace.
  cbn [Py.replace_aux Py.prefix String.length Nat.pred].
  rewrite (eqb_sym Py.CR c).
  destruct s as [|b s']; [now rewrite andb_false_r |].
  rewrite (eqb_sym Py.LF b), andb_true_r.
  destruct (Ascii.eqb c Py.CR && Ascii.eqb b Py.LF); reflexivity.
Qed.

(** A marker without newline characters starts the converted text exactly
    when it starts the text. *)
Lemma prefix_convert_newlines (p s : string) :
  no_newline_char p = true ->
  Py.prefix p (OFXFile._convert_newlines s) = Py.prefix p s.
Proof.
  unfold no_newline_char. revert s.
  induction p as [|a p IH]; intros s H; [reflexivity |].
  cbn [none_of] in H. apply andb_true_iff in H as [Ha Hp].
  apply negb_true_iff, orb_false_iff in Ha as [Hcr Hlf].
  destruct s as [|c s]; [reflexivity |].
  rewrite convert_newlines_cons. destruct s as [|b s'].
  - cbn [Py.prefix]. destruct p; reflexivity.
  - destruct (Ascii.eqb c Py.CR && Ascii.eqb b Py.LF) eqn:E.
    + apply andb_true_iff in E as [Ec Eb]. apply Ascii.eqb_eq in Ec. subst c.
      cbn [Py.prefix]. now rewrite Hcr, Hlf.
    + cbn [Py.prefix]. now rewrite IH.
Qed.

Lemma occurs_convert_newlines (p s : string) :
  p <> EmptyString -> no_newline_char p = true ->
  occurs p (OFXFile._convert_newlines s) = occurs p s.
Proof.
  intros Hne Hp.
  assert (Hhead : forall t, Py.prefix p (String Py.CR t) = false
                            /\ Py.prefix p (String Py.LF t) = false).
  { destruct p as [|a p]; [congruence |]. unfold no_newline_char in Hp.
    cbn [none_of] in Hp. apply andb_true_iff in Hp as [Ha _].
    apply negb_true_iff, orb_false_iff in Ha as [Hcr Hlf].
    intros t. cbn [Py.prefix]. now rewrite Hcr, Hlf. }
  assert (Hall : forall n s, (String.length s <= n)%nat ->
                 occurs p (OFXFile._convert_newlines s) = occurs p s).
  { induction n as [|n IH]; intros t Hlen.
    - destruct t; [reflexivity | cbn in Hlen; lia].
    - destruct t as [|c t]; [reflexivity |].
      rewrite convert_newlines_cons. destruct t as [|b t'].
      + reflexivity.
      + cbn [String.length] in Hlen.
        destruct (Ascii.eqb c Py.CR && Ascii.eqb b Py.LF) eqn:E.
        * apply andb_true_iff in E as [Ec Eb].
          apply Ascii.eqb_eq in Ec, Eb. subst c b.
          cbn [occurs]. rewrite !(proj1 (Hhead _)), !(proj2 (Hhead _)).
          cbn [orb]. apply IH. lia.
        * assert (Hpre : Py.prefix p (String c (OFXFile._convert_newlines (String b t')))
                         = Py.prefix p (String c (String b t'))).
          { rewrite <- (prefix_convert_newlines p (String c (String b t')))
              by exact Hp.
            now rewrite (convert_newlines_cons c (String b t')), E. }
          cbn [occurs]. rewrite Hpre. f_equal. apply IH. cbn [String.length]. lia. }
  now apply (Hall (String.length s)).
Qed.

Lemma is_ofx_response_markers (s : string) :
  is_ofx_response s
  = Py.startswith s "OFXHEADER" || occurs "<?OFX OFXHEADER" s.
Proof.
  unfold is_ofx_response.
  destruct (occurs "<?OFX OFXHEADER" s) eqn:Ho.
  - destruct (Z.eqb_spec (Py.find s "<?OFX OFXHEADER") (-1)) as [Hf | Hf].
    + apply find_occurs in Hf. congruence.
    + cbn [negb]. now rewrite orb_true_r.
  - apply find_occurs in Ho. rewrite Ho. cbn.
    now destruct (Py.startswith s "OFXHEADER").
Qed.

(** The errors of the two header branches. *)
Lemma scan_lines_raises (lines : list string) (h h' : gmap string string) (e : exn) :
  OFXFile.scan_lines lines h = (h', Raise e) ->
  e = ValueError "not enough values to unpack (expected 2, got 1)"
  \/ e = ValueError "too many values to unpack (expected 2)".
Proof.
  revert h. induction lines as [|l lines IH]; intros h; cbn [OFXFile.scan_lines];
    [discriminate |].
  destruct (_ || _); [discriminate |].
  destruct (Py.split l ":") as [|k [|v [|x rest]]];
    try (intros [= _ <-]; tauto).
  apply IH.
Qed.

Lemma store_groups_raises (fields : list string) (m : Re.groups)
    (h h' : gmap string string) (e : exn) :
  OFXFile.store_groups fields m h = (h', Raise e) -> exists msg, e = IndexError msg.
Proof.
  revert h. induction fields as [|f fields IH]; intros h; cbn [OFXFile.store_groups];
    [discriminate |].
  unfold Re.group. destruct (Py.assoc f m); [apply IH |].
  intros [= _ <-]. eauto.
Qed.

Lemma read_version_raises (h : gmap string string) (e : exn) :
  OFXFile.read_version h = Raise e -> e = ValueError "Parse Error: No version".
Proof.
  unfold OFXFile.read_version. destruct (dict_getitem h HDR_VERSION); [discriminate |].
  now intros [= <-].
Qed.

(** X3: the classifier and the parser agree on what an OFX text is.
    [is_ofx_response] is false for a text exactly when constructing an
    [OFXFile] from it fails with the unrecognized-header error and leaves
    the header mapping untouched; every text the classifier accepts takes
    one of the two header branches of the parser, whose results are a
    parsed file or another error. *)
Theorem X3_classifier_agrees_with_parser :
  forall (s : string) (h : gmap string string),
    is_ofx_response s = false
    <-> OFXFile.__init__ s h
        = (h, Raise (ValueError "Parse Error: Unable to parse header")).
Proof.
  intros s h. rewrite is_ofx_response_markers.
  unfold OFXFile.__init__, OFXFile._parse_header, Py.startswith.
  rewrite (prefix_convert_newlines "OFXHEADER" s) by reflexivity.
  destruct (Py.prefix "OFXHEADER" s) eqn:Hstart; cbn [orb].
  - split; [discriminate |]. intros Hbad. exfalso.
    destruct (OFXFile.scan_lines _ h) as [h' [[]|e]] eqn:Hscan.
    + destruct (OFXFile.read_version h') eqn:Hv; [discriminate |].
      apply read_version_raises in Hv. subst. discriminate.
    + apply scan_lines_raises in Hscan. destruct Hscan; subst; discriminate.
  - destruct (Z.eqb_spec (Py.find (OFXFile._convert_newlines s) "<?OFX OFXHEADER") (-1))
      as [Hf | Hf]; cbn [negb].
    + apply find_occurs in Hf.
      rewrite occurs_convert_newlines in Hf by (discriminate || reflexivity).
      rewrite Hf. split; reflexivity.
    + assert (Ho : occurs "<?OFX OFXHEADER" s = true).
      { rewrite <- (occurs_convert_newlines "<?OFX OFXHEADER" s)
          by (discriminate || reflexivity).
        destruct (occurs _ _) eqn:E; [reflexivity |].
        apply find_occurs in E. contradiction. }
      rewrite Ho. split; [discriminate |]. intros Hbad. exfalso.
      destruct (Re.search OFXFile.rpat _) as [m|]; [| discriminate].
      destruct (OFXFile.store_groups HDR_FIELDS_V2 m h) as [h' [[]|e]] eqn:Hst.
      * destruct (OFXFile.read_version h') eqn:Hv; [discriminate |].
        apply read_version_raises in Hv. subst. discriminate.
      * apply store_groups_raises in Hst. destruct Hst as [msg ->]. discriminate.
Qed.

(** ** A well-formed version 2 header *)












(** X5: the client cannot read back what it writes for the second
    generation.  For every numeric version string that starts with 2 the
    profile request is rendered and then rejected by [OFXFile] with the
    malformed-header error, the header mapping left as it was, provided
    the generated id and the server's ORG and FID hold no [<] and no
    carriage return. *)
Theorem X5_gen2_profile_request_is_rejected :
  forall timeout wait use_cache output localtime uuid4
         (v : string) (si : option OFXServerInstance.t) (h : gmap string string),
    all_of Re.digit v = true ->
    tame uuid4 = true ->
    (forall s, si = Some s ->
       tame (OFXServerInstance.org s) = true /\ tame (OFXServerInstance.fid s) = true) ->
    exists self doc,
      OFXTestClient.__init__ timeout wait use_cache output (String "2" v) = Ret self
      /\ OFXTestClient.get_profile_payload localtime uuid4 self si = Ret doc
      /\ OFXFile.__init__ doc h
         = (h, Raise (ValueError "Parse Error: Unable to parse V2 header with regex")).
Proof. exact gen2_profile_never_parsed. Qed.

Lemma X5_gen2_profile_request_is_rejected_witness :
  exists self doc,
    OFXTestClient.__init__ OFXTestClient.default_timeout 0 false false "211" = Ret self
    /\ OFXTestClient.get_profile_payload example_localtime example_uuid4 self
         (Some (OFXServerInstance.__init__ "https://ofx.example.com/ofx"
                  (Some "1001") (Some "BankCo"))) = Ret doc
    /\ OFXFile.__init__ doc ∅
       = (∅, Raise (ValueError "Parse Error: Unable to parse V2 header with regex")).
Proof.
  apply (X5_gen2_profile_request_is_rejected OFXTestClient.default_timeout 0 false
           false example_localtime example_uuid4 "11" _ ∅).
  - reflexivity.
  - reflexivity.
  - intros s [= <-]. split; reflexivity.
Defined.

(** ** The mapping after a version 1 parse *)

Lemma store_lines_store_all (lines : list string) (h : gmap string string) :
  store_lines lines h
  = store_all (map (fun l => (before_colon l, after_colon l)) lines) h.
Proof.
  unfold store_lines, store_all. revert h.
  induction lines as [|l lines IH]; intros h; [reflexivity |].
  cbn [map fold_left fst snd]. now rewrite IH.
Qed.

Lemma lookup_store_lines (lines : list string) (h : gmap string string) (k : string) :
  store_lines lines h !! k
  = match last_value k lines with Some v => Some v | None => h !! k end.
Proof. rewrite store_lines_store_all. apply lookup_store_all. Qed.

Lemma parse_gen1_well_formed (s : string) (h : gmap string string) :
  Py.startswith s "OFXHEADER" = true ->
  Forall (fun l => colons l = 1%nat)
    (region (Py.splitlines (OFXFile._convert_newlines s))) ->
  OFXFile.__init__ s h
  = (store_lines (region (Py.splitlines (OFXFile._convert_newlines s))) h,
     let? v := OFXFile.read_version
                 (store_lines (region (Py.splitlines (OFXFile._convert_newlines s))) h) in
     Ret {| OFXFile._file_str := OFXFile._convert_newlines s;
            OFXFile.version := Some v |}).
Proof.
  intros Hstart Hall. apply startswith_convert_newlines in Hstart.
  unfold OFXFile.__init__, OFXFile._parse_header. rewrite Hstart.
  rewrite scan_lines_region_ok by exact Hall.
  now destruct (OFXFile.read_version _).
Qed.

(** X6: what the shared header mapping holds after a version 1 text with
    a well-formed header region was parsed.  Every field is bound to the
    value of the last line of the region that names it, a repeated field
    keeping its last value, and a field no line names keeps whatever the
    mapping held before the parse: earlier entries are never removed. *)
Theorem X6_gen1_headers_after_parse :
  forall (s : string) (h : gmap string string),
    Py.startswith s "OFXHEADER" = true ->
    Forall (fun l => colons l = 1%nat)
      (region (Py.splitlines (OFXFile._convert_newlines s))) ->
    forall k : string,
      fst (OFXFile.__init__ s h) !! k
      = match last_value k (region (Py.splitlines (OFXFile._convert_newlines s))) with
        | Some v => Some v
        | None => h !! k
        end.
Proof.
  intros s h Hstart Hall k. rewrite parse_gen1_well_formed by assumption.
  cbn [fst]. apply lookup_store_lines.
Qed.

(** A header that gives DATA twice, parsed into a mapping that holds an
    entry of an earlier document. *)
Lemma X6_gen1_headers_after_parse_witness :
  let s := unlines ["OFXHEADER:100"; "DATA:A"; "VERSION:102"; "DATA:B"] in
  let h := <["NEWFILEUID" := "NONE"]> ∅ in
  fst (OFXFile.__init__ s h) !! "DATA" = Some "B"
  /\ fst (OFXFile.__init__ s h) !! "NEWFILEUID" = Some "NONE".
Proof.
  split.
  - rewrite (X6_gen1_headers_after_parse
               (unlines ["OFXHEADER:100"; "DATA:A"; "VERSION:102"; "DATA:B"])
               (<["NEWFILEUID" := "NONE"]> ∅)).
    + reflexivity.
    + reflexivity.
    + repeat constructor.
  - rewrite (X6_gen1_headers_after_parse
               (unlines ["OFXHEADER:100"; "DATA:A"; "VERSION:102"; "DATA:B"])
               (<["NEWFILEUID" := "NONE"]> ∅)).
    + reflexivity.
    + reflexivity.
    + repeat constructor.
Defined.

(** X7: when the missing-version error is raised.  For a version 1 text
    with a well-formed header region the parse fails with "No version"
    exactly when no line of the region names VERSION and the shared mapping
    held no VERSION before; a VERSION left by an earlier document is
    accepted as the version of this one. *)
Theorem X7_missing_version_error :
  forall (s : string) (h : gmap string string),
    Py.startswith s "OFXHEADER" = true ->
    Forall (fun l => colons l = 1%nat)
      (region (Py.splitlines (OFXFile._convert_newlines s))) ->
    (snd (OFXFile.__init__ s h) = Raise (ValueError "Parse Error: No version")
     <-> last_value HDR_VERSION (region (Py.splitlines (OFXFile._convert_newlines s)))
         = None
         /\ h !! HDR_VERSION = None)
    /\ (forall v0,
          last_value HDR_VERSION (region (Py.splitlines (OFXFile._convert_newlines s)))
          = None ->
          h !! HDR_VERSION = Some v0 ->
          parsed_version (snd (OFXFile.__init__ s h)) = Ret (Some v0)).
Proof.
  intros s h Hstart Hall. rewrite parse_gen1_well_formed by assumption.
  cbn [snd]. unfold OFXFile.read_version, dict_getitem.
  rewrite lookup_store_lines.
  destruct (last_value HDR_VERSION _) as [v|].
  - cbn [res_bind]. split.
    + split; [discriminate | intros [H _]; discriminate].
    + discriminate.
  - destruct (h !! HDR_VERSION) as [v0|]; cbn [res_bind].
    + split.
      * split; [discriminate | intros [_ H]; discriminate].
      * now intros v1 _ [= <-].
    + split; [tauto | discriminate].
Qed.

Lemma X7_missing_version_error_witness :
  (snd (OFXFile.__init__ (unlines ["OFXHEADER:100"; "DATA:OFXSGML"]) ∅)
   = Raise (ValueError "Parse Error: No version"))
  /\ parsed_version
       (snd (OFXFile.__init__ (unlines ["OFXHEADER:100"; "DATA:OFXSGML"])
               (<["VERSION" := "103"]> ∅)))
     = Ret (Some "103").
Proof.
  split.
  - apply (X7_missing_version_error (unlines ["OFXHEADER:100"; "DATA:OFXSGML"]) ∅);
      [reflexivity | repeat constructor | split; reflexivity].
  - apply (X7_missing_version_error (unlines ["OFXHEADER:100"; "DATA:OFXSGML"])
             (<["VERSION" := "103"]> ∅));
      [reflexivity | repeat constructor | reflexivity | reflexivity].
Defined.

(** ** The body is never read *)

Lemma scan_lines_before_end (pre : list string) (l : string) (more : list string)
    (h : gmap string string) :
  ends_header l = true ->
  OFXFile.scan_lines (pre ++ l :: more) h = OFXFile.scan_lines pre h.
Proof.
  intros Hend. revert h. induction pre as [|p pre IH]; intros h.
  - now apply scan_lines_stop.
  - cbn [app OFXFile.scan_lines].
    destruct (_ || _); [reflexivity |].
    destruct (Py.split p ":") as [|k [|v [|x rest]]]; try reflexivity.
    apply IH.
Qed.

Lemma prefix_append (p a b : string) :
  Py.prefix p a = true -> Py.prefix p (a +:+ b) = true.
Proof.
  intros H. apply prefix_split in H as [rest ->].
  rewrite append_assoc. apply prefix_refl_append.
Qed.

Lemma splitlines_after_feed (rest : string) :
  Py.splitlines (String Py.LF rest) = EmptyString :: Py.splitlines rest.
Proof. destruct rest; reflexivity. Qed.

Lemma parse_header_lines (hdr : list string) (rest : string) (h : gmap string string) :
  Forall (fun l => plain l = true) hdr ->
  Py.startswith (unlines hdr) "OFXHEADER" = true ->
  OFXFile.__init__ (unlines hdr +:+ String Py.LF rest) h
  = match OFXFile.scan_lines hdr h with
    | (h', Ret _) =>
        (h', let? v := OFXFile.read_version h' in
             Ret {| OFXFile._file_str :=
                      unlines hdr +:+ String Py.LF (OFXFile._convert_newlines rest);
                    OFXFile.version := Some v |})
    | (h', Raise e) => (h', Raise e)
    end.
Proof.
  intros Hplain Hstart. unfold OFXFile.__init__.
  rewrite convert_newlines_unlines by exact Hplain.
  change (String Py.LF rest) with (String Py.LF EmptyString +:+ rest).
  rewrite convert_newlines_append by reflexivity.
  change (String Py.LF EmptyString +:+ OFXFile._convert_newlines rest)
    with (String Py.LF (OFXFile._convert_newlines rest)).
  unfold OFXFile._parse_header, Py.startswith.
  rewrite prefix_append by exact Hstart.
  rewrite splitlines_unlines by exact Hplain.
  rewrite splitlines_after_feed, scan_lines_before_end by reflexivity.
  destruct (OFXFile.scan_lines hdr h) as [h' [[]|e]]; [| reflexivity].
  now destruct (OFXFile.read_version h').
Qed.

(** X8: the parser never reads the body of a version 1 document.  For
    header lines that start with OFXHEADER, the header mapping and the
    version or error of the parse are the same whatever text follows the
    blank line that closes the header. *)
Theorem X8_gen1_parse_ignores_body :
  forall (hdr : list string) (rest1 rest2 : string) (h : gmap string string),
    Forall (fun l => plain l = true) hdr ->
    Py.startswith (unlines hdr) "OFXHEADER" = true ->
    fst (OFXFile.__init__ (unlines hdr +:+ String Py.LF rest1) h)
    = fst (OFXFile.__init__ (unlines hdr +:+ String Py.LF rest2) h)
    /\ parsed_version (snd (OFXFile.__init__ (unlines hdr +:+ String Py.LF rest1) h))
       = parsed_version (snd (OFXFile.__init__ (unlines hdr +:+ String Py.LF rest2) h)).
Proof.
  intros hdr rest1 rest2 h Hplain Hstart.
  rewrite !parse_header_lines by assumption.
  destruct (OFXFile.scan_lines hdr h) as [h' [[]|e]]; [| split; reflexivity].
  split; [reflexivity |]. cbn [snd].
  now destruct (OFXFile.read_version h').
Qed.

Lemma X8_gen1_parse_ignores_body_witness :
  fst (OFXFile.__init__ (unlines (gen1_lines "102") +:+ String Py.LF "<OFX>") ∅)
  = fst (OFXFile.__init__
           (unlines (gen1_lines "102") +:+ String Py.LF "VERSION:999") ∅)
  /\ parsed_version
       (snd (OFXFile.__init__ (unlines (gen1_lines "102") +:+ String Py.LF "<OFX>") ∅))
     = parsed_version
         (snd (OFXFile.__init__
                 (unlines (gen1_lines "102") +:+ String Py.LF "VERSION:999") ∅)).
Proof.
  apply (X8_gen1_parse_ignores_body (gen1_lines "102") "<OFX>" "VERSION:999" ∅).
  - repeat constructor.
  - reflexivity.
Defined.

(** ** What a call does to the world *)

(** The request of a call, when one is sent. *)
Lemma call_sends (network : list http_request -> http_request -> net_outcome)
    (self : OFXTestClient.t) url tlsverify body method (w : world) :
  let w' := fst (OFXTestClient.call_url_cached network self url tlsverify body method w) in
  slept w' = slept w
  /\ (sent w' = sent w
      \/ exists rq,
           sent w' = (sent w ++ [rq])%list
           /\ cache w !! url = None
           /\ rq_url rq = url /\ rq_method rq = method
           /\ rq_verify rq = tlsverify
           /\ rq_timeout rq = OFXTestClient.timeout self
           /\ shaped_by_method body rq).
Proof.
  unfold OFXTestClient.call_url_cached.
  destruct (negb _) eqn:Hm; [cbn; tauto |].
  destruct (cache w !! url) as [r|] eqn:Hc; [cbn; tauto |].
  apply negb_false_iff, orb_true_iff in Hm.
  set (w1 := if OFXTestClient._output self then _ else w).
  assert (Hw1 : sent w1 = sent w /\ slept w1 = slept w).
  { unfold w1. destruct (OFXTestClient._output self); [| tauto].
    destruct (Py.format _ _ _); cbn; tauto. }
  destruct Hw1 as [Hsent Hslept].
  set (rq := {| rq_method := method; rq_url := url; rq_headers := _;
                rq_timeout := OFXTestClient.timeout self; rq_verify := tlsverify;
                rq_data := _ |}).
  assert (Hrq : shaped_by_method body rq).
  { unfold shaped_by_method, rq. cbn [rq_method rq_headers rq_data].
    destruct Hm as [Hm | Hm]; apply String.eqb_eq in Hm; subst method;
      [left | right]; repeat split; reflexivity. }
  assert (Hprint : forall line w0, sent (print line w0) = sent w0
                                   /\ slept (print line w0) = slept w0)
    by (intros [l|e] w0; cbn; tauto).
  cbv zeta.
  destruct (network (sent w1) rq) as [r | ex | ex | e].
  - destruct (OFXTestClient.use_cache self); cbn [fst set_cache send sent slept];
      (split; [exact Hslept |]); right; exists rq; rewrite Hsent; repeat split;
      assumption.
  - cbn [fst set_cache sent slept].
    destruct (OFXTestClient._output self);
      rewrite ?(proj1 (Hprint _ _)), ?(proj2 (Hprint _ _)); cbn [send sent slept];
      (split; [exact Hslept |]); right; exists rq; rewrite Hsent; repeat split;
      assumption.
  - replace (let? v := load_global "wait" in gt_zero v)
      with (@Raise bool (NameError "wait")) by reflexivity.
    cbn [fst].
    destruct (OFXTestClient._output self);
      rewrite ?(proj1 (Hprint _ _)), ?(proj2 (Hprint _ _)); cbn [send sent slept];
      (split; [exact Hslept |]); right; exists rq; rewrite Hsent; repeat split;
      assumption.
  - cbn [fst send sent slept].
    (split; [exact Hslept |]); right; exists rq; rewrite Hsent; repeat split;
      assumption.
Qed.


(** X10: the cache only grows.  An entry of [OFXTestClient.cache] is never
    changed or removed by any sequence of calls, through any clients and
    whatever the network answers: a URL once cached keeps its response, or
    its "no result", for the rest of the run. *)
Theorem X10_cache_entries_are_permanent :
  forall (network : list http_request -> http_request -> net_outcome)
         (calls : list call) (w : world) url (r : option response),
    cache w !! url = Some r ->
    cache (run network calls w) !! url = Some r.
Proof. exact run_keeps_entry. Qed.

Lemma X10_cache_entries_are_permanent_witness :
  cache (run (fun _ _ => Responded example_response)
           [{| c_self := example_caching_client; c_url := "https://ofx.example.com/";
               c_tlsverify := true; c_body := EmptyString; c_method := "GET" |};
            {| c_self := example_caching_client; c_url := "https://ofx.example.com/ofx";
               c_tlsverify := true; c_body := "<OFX>"; c_method := "POST" |}]
           (set_cache (<["https://ofx.example.com/ofx" := None]> ∅) new_world))
    !! "https://ofx.example.com/ofx"
  = Some None.
Proof.
  apply (X10_cache_entries_are_permanent (fun _ _ => Responded example_response)).
  reflexivity.
Defined.

Lemma run_snoc network (cs : list call) (c : call) (w : world) :
  run network (cs ++ [c]) w = fst (do_call network c (run network cs w)).
Proof. unfold run. now rewrite fold_left_app. Qed.

(** X11: every request the client ever sends names the user agent.  If
    all requests sent so far carry the User-Agent header with the fixed
    agent string, so do all requests sent after any sequence of calls, and
    the requests sent before are still the first ones of the record. *)
Theorem X11_every_request_carries_user_agent :
  forall (network : list http_request -> http_request -> net_outcome)
         (calls : list call) (w : world),
    Forall carries_user_agent (sent w) ->
    Forall carries_user_agent (sent (run network calls w))
    /\ exists later, sent (run network calls w) = (sent w ++ later)%list.
Proof.
  intros network calls w Hw.
  induction calls as [|c calls IH] using rev_ind.
  - split; [exact Hw |]. exists []. now rewrite app_nil_r.
  - destruct IH as [Hall [later Hlater]]. rewrite run_snoc. unfold do_call.
    destruct (call_sends network (c_self c) (c_url c) (c_tlsverify c) (c_body c)
                (c_method c) (run network calls w))
      as [_ [Hsame | (rq & Hsent & _ & _ & _ & _ & _ & Hshape)]].
    + rewrite Hsame. split; [exact Hall |]. now exists later.
    + rewrite Hsent. split.
      * apply Forall_app. split; [exact Hall |]. constructor; [| constructor].
        unfold carries_user_agent.
        destruct Hshape as [(_ & -> & _) | (_ & -> & _)]; cbn; tauto.
      * exists (later ++ [rq])%list. now rewrite Hlater, app_assoc.
Qed.

Lemma X11_every_request_carries_user_agent_witness :
  Forall carries_user_agent
    (sent (run (fun _ _ => ConnectionError "refused")
             [{| c_self := example_plain_client; c_url := "https://ofx.example.com/";
                 c_tlsverify := true; c_body := EmptyString; c_method := "GET" |}]
             new_world))
  /\ exists later,
       sent (run (fun _ _ => ConnectionError "refused")
               [{| c_self := example_plain_client; c_url := "https://ofx.example.com/";
                   c_tlsverify := true; c_body := EmptyString; c_method := "GET" |}]
               new_world)
       = (sent new_world ++ later)%list.
Proof.
  apply (X11_every_request_carries_user_agent (fun _ _ => ConnectionError "refused")).
  constructor.
Defined.

(** ** Sending the profile request *)

(** X12: the profile request end to end.  For a constructed client and a
    server whose URL is not cached, [send_req] with the profile request
    name renders the profile payload and sends exactly one request: a POST
    to the server's URL with certificate checking on, the User-Agent and
    Content-Type headers and the payload as body.  If the network answers
    with a response, [send_req] returns it, and it is cached exactly when
    the client uses the cache. *)
Theorem X12_profile_request_is_posted :
  forall (network : list http_request -> http_request -> net_outcome)
         localtime uuid4 timeout wait use_cache output version
         (self : OFXTestClient.t) (s : OFXServerInstance.t) (w : world)
         (r : response),
    OFXTestClient.__init__ timeout wait use_cache output version = Ret self ->
    cache w !! OFXServerInstance.ofxurl s = None ->
    (forall rq, network (sent w) rq = Responded r) ->
    exists payload w',
      OFXTestClient.get_profile_payload localtime uuid4 self (Some s) = Ret payload
      /\ OFXTestClient.send_req network localtime uuid4 self REQ_NAME_OFX_PROFILE
           (Some s) w = (w', Ret (Some r))
      /\ sent w'
         = (sent w
            ++ [{| rq_method := "POST"; rq_url := OFXServerInstance.ofxurl s;
                   rq_headers := [("User-Agent", USER_AGENT);
                                  ("Content-Type", CONTENT_TYPE)];
                   rq_timeout := OFXTestClient.timeout self; rq_verify := true;
                   rq_data := Some payload |}])%list
      /\ cache w' !! OFXServerInstance.ofxurl s
         = (if OFXTestClient.use_cache self then Some (Some r) else None).
Proof.
  intros network localtime uuid4 timeout wait use_cache output version self s w r
         Hinit Hmiss Hnet.
  destruct (profile_payload_shape localtime uuid4 self (Some s)
              (init_content_type _ _ _ _ _ _ Hinit)) as [body Hpay].
  exists (OFXTestClient.ofxheader self +:+ String Py.LF body).
  rewrite (send_req_profile_posts _ _ _ _ _ _ _ Hpay).
  unfold OFXTestClient.call_url_cached. cbn [String.eqb Ascii.eqb Bool.eqb orb negb].
  rewrite Hmiss.
  assert (Hs : forall line, sent (print line w) = sent w) by (intros [l|e]; reflexivity).
  assert (Hc : forall line, cache (print line w) = cache w) by (intros [l|e]; reflexivity).
  destruct (OFXTestClient._output self), (OFXTestClient.use_cache self);
    cbv zeta; rewrite ?Hs, Hnet;
    eexists; (split; [exact Hpay |]); (split; [reflexivity |]);
    cbn [send set_cache sent cache]; rewrite ?Hs, ?Hc;
    (split; [reflexivity |]);
    first [apply lookup_insert_eq | exact Hmiss].
Qed.

Lemma X12_profile_request_is_posted_witness :
  exists payload w',
    OFXTestClient.get_profile_payload example_localtime example_uuid4
      example_caching_client (Some example_server) = Ret payload
    /\ OFXTestClient.send_req (fun _ _ => Responded example_response)
         example_localtime example_uuid4 example_caching_client
         REQ_NAME_OFX_PROFILE (Some example_server) new_world
       = (w', Ret (Some example_response))
    /\ sent w'
       = (sent new_world
          ++ [{| rq_method := "POST"; rq_url := OFXServerInstance.ofxurl example_server;
                 rq_headers := [("User-Agent", USER_AGENT);
                                ("Content-Type", CONTENT_TYPE)];
                 rq_timeout := OFXTestClient.timeout example_caching_client;
                 rq_verify := true; rq_data := Some payload |}])%list
    /\ cache w' !! OFXServerInstance.ofxurl example_server
       = (if OFXTestClient.use_cache example_caching_client
          then Some (Some example_response) else None).
Proof.
  apply (X12_profile_request_is_posted (fun _ _ => Responded example_response)
           example_localtime example_uuid4 OFXTestClient.default_timeout 0 true false
           "102" example_caching_client example_server new_world example_response).
  - reflexivity.
  - reflexivity.
  - reflexivity.
Defined.

(** ** The other payloads *)

Lemma ofx_empty_payload_shape (self : OFXTestClient.t) (si : option OFXServerInstance.t) :
  OFXTestClient.get_ofx_empty_payload self si
  = Ret (OFXTestClient.ofxheader self
         +:+ String Py.LF (unlines ["<OFX>"; "</OFX>"])).
Proof. unfold OFXTestClient.get_ofx_empty_payload. now rewrite format_join. Qed.

Lemma signon_rendered localtime (self : OFXTestClient.t)
    (si : option OFXServerInstance.t) :
  OFXTestClient.content_type self = "text/sgml"
  \/ OFXTestClient.content_type self = "text/xml" ->
  exists signonmsg,
    OFXTestClient._get_signonmsg_anonymous_payload localtime self si = Ret signonmsg.
Proof.
  intros [Hct | Hct]; [rewrite signon_sgml | rewrite signon_xml]; eauto.
Qed.

Lemma acctinfo_payload_shape localtime uuid4 (self : OFXTestClient.t)
    (si : option OFXServerInstance.t) :
  OFXTestClient.content_type self = "text/sgml"
  \/ OFXTestClient.content_type self = "text/xml" ->
  exists body,
    OFXTestClient.get_acctinfo_payload localtime uuid4 self si
    = Ret (OFXTestClient.ofxheader self +:+ String Py.LF body).
Proof.
  intros Hct. destruct (signon_rendered localtime self si Hct) as [sg Hsg].
  unfold OFXTestClient.get_acctinfo_payload. rewrite Hsg.
  cbn [res_bind]. unfold Py.format at 1. eval_pieces.
  cbn [Py.render Py.assoc String.eqb Ascii.eqb Bool.eqb res_bind].
  rewrite format_join. eauto.
Qed.

Lemma invstmtrn_payload_shape localtime uuid4 (self : OFXTestClient.t)
    (si : option OFXServerInstance.t) (brokerid acctid : string) :
  OFXTestClient.content_type self = "text/sgml"
  \/ OFXTestClient.content_type self = "text/xml" ->
  exists body,
    OFXTestClient.get_invstmtrn_payload localtime uuid4 self si brokerid acctid
    = Ret (OFXTestClient.ofxheader self +:+ String Py.LF body).
Proof.
  intros Hct. destruct (signon_rendered localtime self si Hct) as [sg Hsg].
  unfold OFXTestClient.get_invstmtrn_payload. rewrite Hsg.
  cbn [res_bind]. unfold Py.format at 1. eval_pieces.
  cbn [Py.render Py.assoc String.eqb Ascii.eqb Bool.eqb res_bind].
  rewrite format_join. eauto.
Qed.

(** X13: the version round trip of the first generation holds for every
    request document, not only the profile request.  For a version string
    that starts with 1, has at most five characters and holds neither a
    colon nor a line boundary, the empty OFX document, the account-info
    request and the investment-statement request are all rendered, and
    parsing each of them succeeds with VERSION equal to the version
    string. *)
Theorem X13_gen1_payloads_roundtrip :
  forall timeout wait use_cache output localtime uuid4 si brokerid acctid
         (v : string) (h : gmap string string),
    Py.startswith v "1" = true ->
    (String.length v <= 5)%nat ->
    none_of is_colon v = true ->
    plain v = true ->
    exists self d1 d2 d3,
      OFXTestClient.__init__ timeout wait use_cache output v = Ret self
      /\ OFXTestClient.get_ofx_empty_payload self si = Ret d1
      /\ OFXTestClient.get_acctinfo_payload localtime uuid4 self si = Ret d2
      /\ OFXTestClient.get_invstmtrn_payload localtime uuid4 self si brokerid acctid
         = Ret d3
      /\ Forall (fun doc =>
                   exists f h',
                     OFXFile.__init__ doc h = (h', Ret f)
                     /\ OFXFile.version f = Some v
                     /\ OFXFile.headers f h' !! HDR_VERSION = Some v)
           [d1; d2; d3].
Proof.
  intros timeout wait use_cache output localtime uuid4 si brokerid acctid v h
         Hone Hlen Hcol Hplain.
  apply prefix_split in Hone as [v' ->]. cbn [String.append] in *.
  set (v := String "1" v') in *.
  set (self := {| OFXTestClient.timeout := timeout; OFXTestClient.wait := wait;
                  OFXTestClient.use_cache := use_cache;
                  OFXTestClient._output := output;
                  OFXTestClient.version := v;
                  OFXTestClient.ofxheader := unlines (gen1_lines v);
                  OFXTestClient.content_type := "text/sgml" |}).
  assert (Hct : OFXTestClient.content_type self = "text/sgml"
                \/ OFXTestClient.content_type self = "text/xml") by now left.
  destruct (acctinfo_payload_shape localtime uuid4 self si Hct) as [b2 H2].
  destruct (invstmtrn_payload_shape localtime uuid4 self si brokerid acctid Hct)
    as [b3 H3].
  assert (Hparse : forall body,
            exists f h',
              OFXFile.__init__ (unlines (gen1_lines v) +:+ String Py.LF body) h
              = (h', Ret f)
              /\ OFXFile.version f = Some v
              /\ OFXFile.headers f h' !! HDR_VERSION = Some v).
  { intros body. do 2 eexists.
    split; [now apply parse_gen1_document |]. split; [reflexivity |].
    unfold OFXFile.headers, HDR_VERSION.
    rewrite lookup_insert_ne by discriminate. apply lookup_insert_eq. }
  exists self. do 3 eexists.
  split; [apply init_gen1 |].
  split; [apply ofx_empty_payload_shape |].
  split; [exact H2 |]. split; [exact H3 |].
  repeat constructor; apply Hparse.
Qed.

Lemma X13_gen1_payloads_roundtrip_witness :
  exists self d1 d2 d3,
    OFXTestClient.__init__ OFXTestClient.default_timeout 0 false false "103" = Ret self
    /\ OFXTestClient.get_ofx_empty_payload self None = Ret d1
    /\ OFXTestClient.get_acctinfo_payload example_localtime example_uuid4 self None
       = Ret d2
    /\ OFXTestClient.get_invstmtrn_payload example_localtime example_uuid4 self None
         "broker.example.com" "12345" = Ret d3
    /\ Forall (fun doc =>
                 exists f h',
                   OFXFile.__init__ doc ∅ = (h', Ret f)
                   /\ OFXFile.version f = Some "103"
                   /\ OFXFile.headers f h' !! HDR_VERSION = Some "103")
         [d1; d2; d3].
Proof.
  apply (X13_gen1_payloads_roundtrip OFXTestClient.default_timeout 0 false false
           example_localtime example_uuid4 None "broker.example.com" "12345" "103" ∅).
  - reflexivity.
  - simpl. lia.
  - reflexivity.
  - reflexivity.
Defined.

(** A text that opens with the header of a constructed client is
    classified as OFX. *)
Lemma header_is_ofx_response timeout wait use_cache output version
    (self : OFXTestClient.t) (rest : string) :
  OFXTestClient.__init__ timeout wait use_cache output version = Ret self ->
  is_ofx_response (OFXTestClient.ofxheader self +:+ rest) = true.
Proof.
  rewrite is_ofx_response_markers.
  destruct version as [|c v]; [discriminate |].
  destruct (ascii_dec c "1") as [-> | H1].
  - rewrite init_gen1. intros [= <-]. reflexivity.
  - destruct (ascii_dec c "2") as [-> | H2].
    + rewrite init_gen2. intros [= <-]. cbn [OFXTestClient.ofxheader].
      apply orb_true_iff. right. reflexivity.
    + rewrite init_unsupported_version by assumption. discriminate.
Qed.

(** X14: the classifier accepts every document the client builds with a
    header.  For a constructed client of either generation, whatever its
    version string, the profile, empty-OFX, account-info and
    investment-statement payloads are rendered and [is_ofx_response] holds
    of each; the empty payload of [get_empty_payload] is not an OFX
    text. *)
Theorem X14_client_payloads_are_ofx_responses :
  forall timeout wait use_cache output version localtime uuid4
         (self : OFXTestClient.t) si brokerid acctid,
    OFXTestClient.__init__ timeout wait use_cache output version = Ret self ->
    exists d0 d1 d2 d3,
      OFXTestClient.get_profile_payload localtime uuid4 self si = Ret d0
      /\ OFXTestClient.get_ofx_empty_payload self si = Ret d1
      /\ OFXTestClient.get_acctinfo_payload localtime uuid4 self si = Ret d2
      /\ OFXTestClient.get_invstmtrn_payload localtime uuid4 self si brokerid acctid
         = Ret d3
      /\ Forall (fun doc => is_ofx_response doc = true) [d0; d1; d2; d3]
      /\ is_ofx_response (OFXTestClient.get_empty_payload self si) = false.
Proof.
  intros timeout wait use_cache output version localtime uuid4 self si brokerid
         acctid Hinit.
  pose proof (init_content_type _ _ _ _ _ _ Hinit) as Hct.
  destruct (profile_payload_shape localtime uuid4 self si Hct) as [b0 H0].
  destruct (acctinfo_payload_shape localtime uuid4 self si Hct) as [b2 H2].
  destruct (invstmtrn_payload_shape localtime uuid4 self si brokerid acctid Hct)
    as [b3 H3].
  do 4 eexists.
  split; [exact H0 |]. split; [apply ofx_empty_payload_shape |].
  split; [exact H2 |]. split; [exact H3 |].
  split; [| reflexivity].
  repeat constructor; eapply header_is_ofx_response; exact Hinit.
Qed.

Lemma X14_client_payloads_are_ofx_responses_witness :
  exists d0 d1 d2 d3,
    OFXTestClient.get_profile_payload example_localtime example_uuid4
      example_plain_client None = Ret d0
    /\ OFXTestClient.get_ofx_empty_payload example_plain_client None = Ret d1
    /\ OFXTestClient.get_acctinfo_payload example_localtime example_uuid4
         example_plain_client None = Ret d2
    /\ OFXTestClient.get_invstmtrn_payload example_localtime example_uuid4
         example_plain_client None "broker.example.com" "12345" = Ret d3
    /\ Forall (fun doc => is_ofx_response doc = true) [d0; d1; d2; d3]
    /\ is_ofx_response (OFXTestClient.get_empty_payload example_plain_client None)
       = false.
Proof.
  apply (X14_client_payloads_are_ofx_responses OFXTestClient.default_timeout 0 false
           false "102" example_localtime example_uuid4 example_plain_client None
           "broker.example.com" "12345").
  reflexivity.
Defined.

(** ** The time stamp *)

Lemma all_of_append (cls : ascii -> bool) (a b : string) :
  all_of cls (a +:+ b) = all_of cls a && all_of cls b.
Proof.
  induction a as [|c a IH]; cbn [String.append all_of]; [reflexivity |].
  now rewrite IH, andb_assoc.
Qed.

Lemma uint_digits (d : Decimal.uint) :
  all_of Re.digit (NilEmpty.string_of_uint d) = true.
Proof. induction d; cbn [NilEmpty.string_of_uint all_of]; try reflexivity; exact IHd. Qed.

Lemma dec2_digits (n : nat) : all_of Re.digit (dec2 n) = true.
Proof.
  unfold dec2, dec. destruct (n <? 10)%nat; [| apply uint_digits].
  rewrite all_of_append, uint_digits. reflexivity.
Qed.

Lemma dec2_length (n : nat) : (n < 100)%nat -> String.length (dec2 n) = 2%nat.
Proof.
  intros Hn.
  assert (Hall : forallb (fun k => Nat.eqb (String.length (dec2 k)) 2) (seq 0 100) = true)
    by (vm_compute; reflexivity).
  rewrite forallb_forall in Hall. apply Nat.eqb_eq, Hall, in_seq. lia.
Qed.

Lemma dec_year_length (n : nat) :
  1000 <= Z.of_nat n <= 9999 -> String.length (dec n) = 4%nat.
Proof.
  intros Hn.
  assert (Hall : forallb (fun k => Nat.eqb (String.length (dec k)) 4)
                   (seq (Z.to_nat 1000) (Z.to_nat 9000)) = true)
    by (vm_compute; reflexivity).
  rewrite forallb_forall in Hall. apply Nat.eqb_eq, Hall, in_seq. lia.
Qed.

(** X15: the shape of the client time stamp.  For a local time with a
    four-digit year and fields in their calendar ranges, [dt_now] is
    fourteen decimal digits, the year, month, day, hour, minute and second,
    followed by the fixed text .123[-7:MST]: twenty-six characters, whose
    fraction and zone do not depend on the clock. *)
Theorem X15_time_stamp_shape :
  forall t : struct_time,
    1000 <= Z.of_nat (tm_year t) <= 9999 ->
    (tm_mon t <= 12)%nat -> (tm_mday t <= 31)%nat ->
    (tm_hour t <= 23)%nat -> (tm_min t <= 59)%nat -> (tm_sec t <= 61)%nat ->
    exists d,
      dt_now t = d +:+ ".123[-7:MST]"
      /\ d = dec (tm_year t) +:+ dec2 (tm_mon t) +:+ dec2 (tm_mday t)
             +:+ dec2 (tm_hour t) +:+ dec2 (tm_min t) +:+ dec2 (tm_sec t)
      /\ all_of Re.digit d = true
      /\ String.length d = 14%nat
      /\ String.length (dt_now t) = 26%nat.
Proof.
  intros t Hy Hmon Hday Hh Hmin Hs.
  assert (Hdt : dt_now t
                = (dec (tm_year t) +:+ dec2 (tm_mon t) +:+ dec2 (tm_mday t)
                   +:+ dec2 (tm_hour t) +:+ dec2 (tm_min t) +:+ dec2 (tm_sec t))
                  +:+ ".123[-7:MST]").
  { unfold dt_now. cbn [strftime]. unfold directive.
    cbn [Ascii.eqb Bool.eqb]. now rewrite !append_assoc. }
  eexists. split; [exact Hdt |]. split; [reflexivity |].
  assert (Hlen : String.length
                   (dec (tm_year t) +:+ dec2 (tm_mon t) +:+ dec2 (tm_mday t)
                    +:+ dec2 (tm_hour t) +:+ dec2 (tm_min t) +:+ dec2 (tm_sec t))
                 = 14%nat).
  { rewrite !length_append, dec_year_length by exact Hy.
    rewrite !dec2_length by lia. reflexivity. }
  split; [| split; [exact Hlen |]].
  - rewrite !all_of_append, !dec2_digits. unfold dec. now rewrite uint_digits.
  - rewrite Hdt, length_append, Hlen. reflexivity.
Qed.

Lemma X15_time_stamp_shape_witness :
  exists d,
    dt_now example_localtime = d +:+ ".123[-7:MST]"
    /\ d = dec 2017 +:+ dec2 6 +:+ dec2 16 +:+ dec2 14 +:+ dec2 13 +:+ dec2 27
    /\ all_of Re.digit d = true
    /\ String.length d = 14%nat
    /\ String.length (dt_now example_localtime) = 26%nat.
Proof.
  apply (X15_time_stamp_shape example_localtime); cbn [example_localtime tm_year tm_mon tm_mday tm_hour tm_min tm_sec]; lia.
Defined.

(** ** What the answer of a call tells *)

(** X16: an answer (None, wasCached = False) always reports a connection
    failure that has just been recorded.  Whenever [call_url_cached]
    returns it, the URL was not cached before, the one request sent met a
    connection error, and the cache now holds the URL with "no result",
    whether or not the client uses the cache. *)
Theorem X16_no_result_means_recorded_connection_failure :
  forall (network : list http_request -> http_request -> net_outcome)
         (self : OFXTestClient.t) url tlsverify body method (w w' : world),
    OFXTestClient.call_url_cached network self url tlsverify body method w
    = (w', Ret (None, false)) ->
    cache w !! url = None
    /\ cache w' !! url = Some None
    /\ exists rq ex,
         network (sent w) rq = ConnectionError ex
         /\ rq_url rq = url
         /\ sent w' = (sent w ++ [rq])%list.
Proof.
  intros network self url tlsverify body method w w'.
  unfold OFXTestClient.call_url_cached.
  destruct (negb _); [discriminate |].
  destruct (cache w !! url) as [r|] eqn:Hc; [discriminate |].
  set (w1 := if OFXTestClient._output self then _ else w).
  assert (Hsent : sent w1 = sent w).
  { unfold w1. destruct (OFXTestClient._output self); [| reflexivity].
    apply print_sent. }
  set (rq := {| rq_method := method; rq_url := url; rq_headers := _;
                rq_timeout := OFXTestClient.timeout self; rq_verify := tlsverify;
                rq_data := _ |}).
  cbv zeta. destruct (network (sent w1) rq) as [r | ex | ex | e] eqn:Hnet.
  - destruct (OFXTestClient.use_cache self); discriminate.
  - intros [= <-]. split; [reflexivity |].
    cbn [set_cache cache]. split; [apply lookup_insert_eq |].
    exists rq, ex. rewrite <- Hsent. split; [exact Hnet |]. split; [reflexivity |].
    cbn [sent]. destruct (OFXTestClient._output self);
      rewrite ?print_sent; reflexivity.
  - replace (let? v := load_global "wait" in gt_zero v)
      with (@Raise bool (NameError "wait")) by reflexivity.
    discriminate.
  - discriminate.
Qed.

Lemma X16_no_result_means_recorded_connection_failure_witness :
  let w' := fst (OFXTestClient.call_url_cached (fun _ _ => ConnectionError "refused")
                   example_plain_client "https://ofx.example.com/ofx" true
                   EmptyString "GET" new_world) in
  cache new_world !! "https://ofx.example.com/ofx" = None
  /\ cache w' !! "https://ofx.example.com/ofx" = Some None
  /\ exists rq ex,
       (fun _ _ => ConnectionError "refused") (sent new_world) rq = ConnectionError ex
       /\ rq_url rq = "https://ofx.example.com/ofx"
       /\ sent w' = (sent new_world ++ [rq])%list.
Proof.
  apply (X16_no_result_means_recorded_connection_failure
           (fun _ _ => ConnectionError "refused") example_plain_client
           "https://ofx.example.com/ofx" true EmptyString "GET" new_world).
  reflexivity.
Defined.
